(** * unifi-mongodb-logs-to-loki: the change-stream consumer of [main.py]

    A shallow embedding of [flatten], [UnifiToLoki._labels_for_change],
    [UnifiToLoki.handle_change] and the loop of [UnifiToLoki.run], with the
    properties the specification states about them.

    Python values are a tagged union, dictionaries are association lists in
    insertion order (the order in which a Python [dict] iterates), exceptions
    are an error type, and the two effects of the program (the HTTP POST and
    the write of the resume-token file) are recorded in an explicit world. *)

From Stdlib Require Import ZArith List String Ascii Bool Lia.
From Stdlib Require Import DecimalString SpecFloat.
Import ListNotations.

Local Open Scope string_scope.
Local Open Scope Z_scope.

(** ** Python values *)

(** A naive [datetime.datetime] (pymongo decodes BSON dates to naive
    datetimes unless asked otherwise). *)
Record datetime := mk_datetime {
  dt_year : nat; dt_month : nat; dt_day : nat;
  dt_hour : nat; dt_minute : nat; dt_second : nat;
  dt_microsecond : nat }.

(** The values a decoded BSON document is made of.  A [float] is an IEEE
    binary64 number, kept as the Standard Library's [spec_float]; a
    [string] lists the characters of a Python [str], so that
    [String.length] is [len].  The rarer BSON types (binary data,
    [Decimal128], [Timestamp], [Regex]) have no constructor here: no
    statement below is about a document that holds one. *)
#[local] Set Warnings "-register-all".
Inductive value : Type :=
| VNone
| VBool (b : bool)
| VInt (z : Z)
| VFloat (f : spec_float)
| VStr (s : string)
| VDatetime (d : datetime)
| VObjectId (hex : string)
| VList (l : list value)
| VDict (d : list (string * value)).

(** A [dict] with string keys, in insertion order. *)
Definition dict := list (string * value).

(** [isinstance(value, MutableMapping)] *)
Definition is_mapping (v : value) : bool :=
  match v with VDict _ => true | _ => false end.

(** ** Dictionaries *)

(** [k in d] and [d.get(k)]: the entry stored under [k]. *)
Fixpoint dict_get (d : dict) (k : string) : option value :=
  match d with
  | [] => None
  | (k', v) :: t => if String.eqb k' k then Some v else dict_get t k
  end.

(** [d[k] = v]: an existing key keeps its place, a new key goes last. *)
Fixpoint dict_set (d : dict) (k : string) (v : value) : dict :=
  match d with
  | [] => [(k, v)]
  | (k', v') :: t =>
      if String.eqb k' k then (k', v) :: t else (k', v') :: dict_set t k v
  end.

(** [d.get(k, default)] *)
Definition dict_get_default (d : dict) (k : string) (default : value) : value :=
  match dict_get d k with Some v => v | None => default end.

(** [dict(items)]: the pairs are stored one after the other, so that the
    last pair of a repeated key wins. *)
Definition dict_of_items (items : list (string * value)) : dict :=
  fold_left (fun d kv => dict_set d (fst kv) (snd kv)) items [].

Definition keys (d : dict) : list string := map fst d.

(** ** [flatten] (main.py, lines 55-64) *)

(** [new_key = parent_key + separator + key if parent_key else key] *)
Definition new_key (parent_key separator key : string) : string :=
  if String.eqb parent_key "" then key else parent_key ++ separator ++ key.

(** The body of [flatten], by recursion on the value that holds the
    dictionary: [items] is extended entry by entry, with the items of the
    flattened sub-dictionary for a mapping and with the entry itself
    otherwise, and [dict(items)] is returned. *)
Fixpoint flatten_value (v : value) (parent_key separator : string) : dict :=
  match v with
  | VDict d =>
      dict_of_items
        ((fix entries (l : list (string * value)) : list (string * value) :=
            match l with
            | [] => []
            | (key, x) :: t =>
                (match x with
                 | VDict _ =>
                     flatten_value x (new_key parent_key separator key) separator
                 | _ => [(new_key parent_key separator key, x)]
                 end ++ entries t)%list
            end) d)
  | _ => []
  end.

Definition flatten (dictionary : dict) (parent_key separator : string) : dict :=
  flatten_value (VDict dictionary) parent_key separator.

(** The items collected by the loop of [flatten], before [dict(items)]. *)
Fixpoint flatten_items (l : dict) (parent_key separator : string)
  : list (string * value) :=
  match l with
  | [] => []
  | (key, x) :: t =>
      (match x with
       | VDict sub => flatten sub (new_key parent_key separator key) separator
       | _ => [(new_key parent_key separator key, x)]
       end ++ flatten_items t parent_key separator)%list
  end.

(** A mapping is flat when no value of it is a mapping. *)
Definition flat (d : dict) : Prop :=
  Forall (fun kv => is_mapping (snd kv) = false) d.


(** ** Exceptions and results *)

Inductive exn : Type :=
| KeyError (key : string)
| TypeError
| ValueError
| OverflowError
| AttributeError
| HTTPError (status_code : Z) (text : string)
| ConnectionError
| PyMongoError.

Inductive result (A : Type) : Type :=
| Ok (a : A)
| Raise (e : exn).
Arguments Ok {A} a.
Arguments Raise {A} e.

Definition rbind {A B : Type} (r : result A) (k : A -> result B) : result B :=
  match r with Ok a => k a | Raise e => Raise e end.

Declare Scope result_scope.
Delimit Scope result_scope with result.
Notation "x <- c ; k" := (rbind c (fun x => k))
  (at level 61, c at next level, right associativity) : result_scope.

(** ** The builtins the program uses *)

(** [str(n)] for an [int]. *)
Definition decimal (z : Z) : string := NilZero.string_of_int (Z.to_int z).

(** [n] in decimal, padded with zeros to [width] digits ([%0<width>d]). *)
Fixpoint zero_pad (missing : nat) (s : string) : string :=
  match missing with O => s | S m => String "0" (zero_pad m s) end.

Definition padded (width n : nat) : string :=
  let s := NilZero.string_of_uint (Nat.to_uint n) in
  zero_pad (width - String.length s) s.

(** [d.isoformat(sep)] of a naive datetime: the microseconds are printed
    only when they are not zero. *)
Definition isoformat (sep : string) (d : datetime) : string :=
  padded 4 (dt_year d) ++ "-" ++ padded 2 (dt_month d) ++ "-" ++
  padded 2 (dt_day d) ++ sep ++ padded 2 (dt_hour d) ++ ":" ++
  padded 2 (dt_minute d) ++ ":" ++ padded 2 (dt_second d) ++
  match dt_microsecond d with
  | O => ""
  | us => "." ++ padded 6 us
  end.

(** Binary64. *)
Definition prec : Z := 53.
Definition emax : Z := 1024.

(** [a / 1000] for an [int] [a]: true division, the quotient rounded to the
    nearest binary64 number; [OverflowError] when it is too large for one. *)
Definition int_truediv_1000 (a : Z) : result spec_float :=
  match a with
  | Z0 => Ok (S754_zero false)
  | Zpos m | Zneg m =>
      match SFdiv prec emax (S754_finite (a <? 0) m 0) (S754_finite false 1000 0) with
      | S754_infinity _ => Raise OverflowError
      | q => Ok q
      end
  end.

(** [x / 1000]: defined on [int], [bool] and [float] only. *)
Definition truediv_1000 (x : value) : result value :=
  match x with
  | VInt z => rbind (int_truediv_1000 z) (fun q => Ok (VFloat q))
  | VBool b => rbind (int_truediv_1000 (if b then 1 else 0)) (fun q => Ok (VFloat q))
  | VFloat f => Ok (VFloat (SFdiv prec emax f (S754_finite false 1000 0)))
  | _ => Raise TypeError
  end.

(** [int(f)] for a [float]: truncation towards zero. *)
Definition float_trunc (f : spec_float) : result Z :=
  match f with
  | S754_zero _ => Ok 0
  | S754_infinity _ => Raise OverflowError
  | S754_nan => Raise ValueError
  | S754_finite s m e =>
      let a := match e with
               | Zneg k => Z.shiftr (Zpos m) (Zpos k)
               | _ => Z.shiftl (Zpos m) e
               end in
      Ok (if s then - a else a)
  end.

(** [x[k]] for a string [k]: only a [dict] can be subscripted by one. *)
Definition getitem (x : value) (k : string) : result value :=
  match x with
  | VDict d => match dict_get d k with Some v => Ok v | None => Raise (KeyError k) end
  | _ => Raise TypeError
  end.

(** [x[k] = v] for a string [k]; the updated mapping is returned. *)
Definition setitem (x : value) (k : string) (v : value) : result dict :=
  match x with
  | VDict d => Ok (dict_set d k v)
  | _ => Raise TypeError
  end.

(** [x.get(k, default)]: of the values of a document only a [dict] has the
    method. *)
Definition get_method (x : value) (k : string) (default : value) : result value :=
  match x with
  | VDict d => Ok (dict_get_default d k default)
  | _ => Raise AttributeError
  end.

(** [x == s] for a string literal [s]. *)
Definition eq_str (x : value) (s : string) : bool :=
  match x with VStr s' => String.eqb s' s | _ => false end.

(** [a + b] where one of the operands is known to be a [str]: the
    concatenation when the other is a [str] too, [TypeError] if not. *)
Definition str_concat (a b : value) : result value :=
  match a, b with
  | VStr s, VStr s' => Ok (VStr (s ++ s'))
  | _, _ => Raise TypeError
  end.

(** ** JSON, as [json.dumps(..., cls=MagicEncoder)] sees a value

    The encoder is modelled up to the JSON tree it writes; the text of the
    tree is not modelled. *)
Inductive json : Type :=
| JNull
| JBool (b : bool)
| JInt (z : Z)
| JFloat (f : spec_float)
| JStr (s : string)
| JArr (l : list json)
| JObj (l : list (string * json)).

(** [MagicEncoder]: a [datetime] is written as [o.isoformat('T')]; any other
    object the encoder does not know (here an [ObjectId]) is passed to
    [JSONEncoder.default], which raises [TypeError]. *)
Fixpoint dumps (o : value) : result json :=
  match o with
  | VNone => Ok JNull
  | VBool b => Ok (JBool b)
  | VInt z => Ok (JInt z)
  | VFloat f => Ok (JFloat f)
  | VStr s => Ok (JStr s)
  | VDatetime d => Ok (JStr (isoformat "T" d))
  | VObjectId _ => Raise TypeError
  | VList l =>
      rbind
        ((fix elements (l : list value) : result (list json) :=
            match l with
            | [] => Ok []
            | x :: t =>
                rbind (dumps x) (fun j =>
                rbind (elements t) (fun js => Ok (j :: js)))
            end) l)
        (fun js => Ok (JArr js))
  | VDict d =>
      rbind
        ((fix members (l : list (string * value)) : result (list (string * json)) :=
            match l with
            | [] => Ok []
            | (k, x) :: t =>
                rbind (dumps x) (fun j =>
                rbind (members t) (fun js => Ok ((k, j) :: js)))
            end) d)
        (fun js => Ok (JObj js))
  end.

(** ** The program *)

(** The request [requests.post] sends: the URL, the content type, and the
    payload [{"streams": [{"stream": labels, "values": [[ts, line]]}]}],
    where [line] is the JSON encoding of the flattened record. *)
Record request := mk_request {
  req_url : string;
  req_content_type : string;
  req_stream : json;
  req_ts : string;
  req_line : json }.

(** The response: [resp.status_code] and [resp.text]. *)
Record response := mk_response {
  status_code : Z;
  text : string }.

(** What the program does to the outside, in the order it does it: a call
    of [requests.post] with the answer the call returns, and a write of the
    resume-token file.  What the library puts on the wire within one call
    (it follows redirects) is not part of the model. *)
Inductive effect : Type :=
| Posted (r : request) (answer : option response)
| WroteToken (token : value).

(** The state the program works on: [self.resume_token], the contents of
    the file [resume_token.pkl], and the effects so far (oldest first). *)
Record state := mk_state {
  resume_token : option value;
  token_file : option value;
  trace : list effect }.

(** An entry of the change stream: a change event, or the failure of the
    stream. *)
Inductive stream_item : Type :=
| Change (change : dict)
| StreamFailure.

(** Computations that work on the state and may raise; the state reached
    when an exception is raised is kept. *)
Definition M (A : Type) : Type := state -> result A * state.

Definition ret {A : Type} (a : A) : M A := fun s => (Ok a, s).

Definition bind {A B : Type} (c : M A) (k : A -> M B) : M B :=
  fun s => match c s with
           | (Ok a, s') => k a s'
           | (Raise e, s') => (Raise e, s')
           end.

Definition lift {A : Type} (r : result A) : M A := fun s => (r, s).

Declare Scope prog_scope.
Delimit Scope prog_scope with prog.
Notation "x <- c ;; k" := (bind c (fun x => k))
  (at level 61, c at next level, right associativity) : prog_scope.
Notation "c ;; k" := (bind c (fun _ => k))
  (at level 61, right associativity) : prog_scope.

(** [UnifiToLoki.WANTED_COLLECTIONS] *)
Definition WANTED_COLLECTIONS : list string :=
  [ "admin_activity_log"; "alarm"; "alert"; "event"; "inspection_log";
    "threat_log_view"; "trigger_log" ].

(** [UnifiToLoki.LOKI_PORT] *)
Definition LOKI_PORT : Z := 3100.

(** [coll in self.WANTED_COLLECTIONS] *)
Definition wanted (coll : value) : bool :=
  existsb (eq_str coll) WANTED_COLLECTIONS.

(** [resp.raise_for_status()] of the requests library: [HTTPError], which
    holds the response, for a status from 400 to 599, and nothing for any
    other status. *)
Definition raise_for_status (resp : response) : result unit :=
  if (400 <=? status_code resp) && (status_code resp <? 600)
  then Raise (HTTPError (status_code resp) (text resp))
  else Ok tt.

(** ** Sample data

    An instance of the runtime's parameters for the examples.  The examples
    take no [str] of a [float], a [list] or a [dict] and no [int] of a
    string, so that nothing in them depends on it. *)
Definition example_repr : value -> string := fun _ => "".
Definition example_int_of_str : string -> option Z := fun _ => None.

(** An endpoint that answers every request with the same status. *)
Definition answering (status : Z) (body : string)
  : list effect -> request -> option response :=
  fun _ _ => Some (mk_response status body).

(** The id of an event: a resume token. *)
Definition token (data : string) : value := VDict [("_data", VStr data)].

(** An insert event of the change stream. *)
Definition insert_event (data coll : string) (fullDocument : dict) : dict :=
  [ ("_id", token data);
    ("operationType", VStr "insert");
    ("ns", VDict [("db", VStr "unifi"); ("coll", VStr coll)]);
    ("fullDocument", VDict fullDocument) ].

Definition alert_document (time : Z) : dict :=
  [ ("_id", VObjectId "65532f00a1b2c3d4e5f60718");
    ("key", VStr "EVT_GW_WANTransition");
    ("time", VInt time);
    ("msg", VStr "WAN failover") ].

Definition alert_event : dict := insert_event "8265" "alert" (alert_document 1700000000000).
Definition alert_event_seconds : dict := insert_event "8266" "alert" (alert_document 1700000000).

(** An event of a collection that is not wanted. *)
Definition site_event : dict :=
  insert_event "8267" "site" [("_id", VObjectId "65532f00a1b2c3d4e5f60719"); ("name", VStr "default")].

(** An event without [ns]. *)
Definition bare_event : dict := [("_id", token "8268"); ("operationType", VStr "insert")].

(** An alert whose document has no [time]. *)
Definition timeless_event : dict :=
  insert_event "8269" "alert" [("_id", VObjectId "65532f00a1b2c3d4e5f6071a"); ("key", VStr "EVT_AP_Lost")].

(** A document of [event] whose [key] is only inside the sub-mapping
    [meta]. *)
Definition nested_key_document : dict :=
  [ ("_id", VStr "65532f00a1b2c3d4e5f6071b");
    ("collection", VStr "event");
    ("time", VInt 1700000000);
    ("meta", VDict [("key", VStr "EVT_SW_Connected")]) ].

Definition inspection_document : dict :=
  [ ("collection", VStr "inspection_log");
    ("log_source", VStr "fw");
    ("action", VStr "block") ].

(** The state of a first start: no resume token, no file, nothing done. *)
Definition cold_start : state := mk_state None None [].

(** An endpoint that cannot be reached. *)
Definition unreachable : list effect -> request -> option response :=
  fun _ _ => None.

(** An alert whose [time] is null. *)
Definition null_time_document : dict :=
  [ ("_id", VObjectId "65532f00a1b2c3d4e5f6071c");
    ("key", VStr "EVT_AP_Lost");
    ("time", VNone) ].

Definition null_time_event : dict := insert_event "8270" "alert" null_time_document.

(** An environment with the two required variables. *)
Definition example_environ : list (string * string) :=
  [ ("MONGODB_CONN_STR", "mongodb://127.0.0.1:27117");
    ("LOKI_HOST", "loki") ].

(** An alert event without [fullDocument]. *)
Definition bare_alert_event : dict :=
  [ ("_id", token "8271");
    ("operationType", VStr "insert");
    ("ns", VDict [("db", VStr "unifi"); ("coll", VStr "alert")]) ].

Section Program.

(** What the Python runtime does and the program does not decide: the
    [repr] of a [float], a [list] or a [dict] (which is their [str]), and
    the parser of [int(s)] for a string [s] ([None] for [ValueError]). *)
Variable py_repr : value -> string.
Variable py_int_of_str : string -> option Z.

(** The ingestion endpoint: given the effects so far and a request, the
    response, or [None] when the request fails in transport. *)
Variable endpoint : list effect -> request -> option response.

(** [self.loki_host] and [self.host] *)
Variable loki_host : string.
Variable host : string.

(** [str(x)] *)
Definition py_str (x : value) : string :=
  match x with
  | VNone => "None"
  | VBool true => "True"
  | VBool false => "False"
  | VInt z => decimal z
  | VStr s => s
  | VDatetime d => isoformat " " d
  | VObjectId hex => hex
  | VFloat _ | VList _ | VDict _ => py_repr x
  end.

(** [int(x)] *)
Definition py_int (x : value) : result Z :=
  match x with
  | VInt z => Ok z
  | VBool b => Ok (if b then 1 else 0)
  | VFloat f => float_trunc f
  | VStr s => match py_int_of_str s with Some z => Ok z | None => Raise ValueError end
  | _ => Raise TypeError
  end.

(** The labels every change carries (lines 140-145). *)
Definition fixed_labels (collection : value) : dict :=
  [ ("source", VStr "unifi-mongodb-watcher");
    ("job", VStr "unifi-mongodb-watcher");
    ("host", VStr host);
    ("collection", collection) ].

(** [UnifiToLoki._labels_for_change] (lines 139-160) *)
Definition _labels_for_change (change : dict) : result dict :=
  (collection <- getitem (VDict change) "collection" ;
   let result := fixed_labels collection in
   if eq_str collection "admin_activity_log" then
     Ok (dict_set result "row_key" (dict_get_default change "key" (VStr "unknown")))
   else if eq_str collection "alarm" then
     Ok (dict_set result "row_key" (dict_get_default change "key" (VStr "unknown")))
   else if eq_str collection "alert" then
     Ok (dict_set result "row_key" (dict_get_default change "key" (VStr "unknown")))
   else if eq_str collection "event" then
     Ok (dict_set result "row_key" (dict_get_default change "key" (VStr "unknown")))
   else if eq_str collection "inspection_log" then
     prefix <- str_concat (dict_get_default change "log_source" (VStr "")) (VStr "/") ;
     row_key <- str_concat prefix (dict_get_default change "action" (VStr "")) ;
     Ok (dict_set result "row_key" row_key)
   else if eq_str collection "threat_log_view" then
     Ok (dict_set result "row_key" (dict_get_default change "signature" (VStr "unknown")))
   else if eq_str collection "trigger_log" then
     Ok (dict_set result "row_key" (dict_get_default change "key" (VStr "unknown")))
   else Ok result)%result.

(** Lines 167-168 of [handle_change]: the [time] of the document is
    divided by 1000 when its [str] has more than 10 characters. *)
Definition normalize_time (change : dict) : result dict :=
  (time <- getitem (VDict change) "time" ;
   if (10 <? String.length (py_str time))%nat then
     seconds <- truediv_1000 time ;
     Ok (dict_set change "time" seconds)
   else Ok change)%result.

(** Line 169: [ts = str(int(change['time']) * 1000000000)] *)
Definition timestamp (change : dict) : result string :=
  (time <- getitem (VDict change) "time" ;
   n <- py_int time ;
   Ok (decimal (n * 1000000000)))%result.

(** [UnifiToLoki.handle_change] up to the request it is about to send
    (lines 163-183).  The event is returned as the assignments have left
    it: they change the [fullDocument] it holds in place. *)
Definition handle_change_request (change : dict) : result (request * dict) :=
  (ns <- getitem (VDict change) "ns" ;
   coll <- getitem ns "coll" ;
   fullDocument <- getitem (VDict change) "fullDocument" ;
   change1 <- setitem fullDocument "collection" coll ;
   _id <- getitem (VDict change1) "_id" ;
   let change2 := dict_set change1 "_id" (VStr (py_str _id)) in
   change3 <- normalize_time change2 ;
   ts <- timestamp change3 ;
   let url := "http://" ++ loki_host ++ ":" ++ decimal LOKI_PORT ++ "/loki/api/v1/push" in
   let flat := flatten change3 "" "_" in
   labels <- _labels_for_change change3 ;
   line <- dumps (VDict flat) ;
   stream <- dumps (VDict labels) ;
   Ok (mk_request url "application/json" stream ts line,
       dict_set change "fullDocument" (VDict change3)))%result.

(** [requests.post]: the call and its answer are recorded, one entry for
    each call; a call that fails in transport raises. *)
Definition post (r : request) : M response :=
  fun s =>
    let answer := endpoint (trace s) r in
    let s' := mk_state (resume_token s) (token_file s)
                       (trace s ++ [Posted r answer]) in
    match answer with
    | Some resp => (Ok resp, s')
    | None => (Raise ConnectionError, s')
    end.

(** [UnifiToLoki.handle_change] (lines 162-194) *)
Definition handle_change (change : dict) : M dict :=
  (built <- lift (handle_change_request change) ;;
   resp <- post (fst built) ;;
   lift (raise_for_status resp) ;;
   ret (snd built))%prog.

(** [self.resume_token = token] *)
Definition set_resume_token (token : value) : M unit :=
  fun s => (Ok tt, mk_state (Some token) (token_file s) (trace s)).

(** [pickle.dump(self.resume_token, fh)] into the freshly opened
    [RESUME_TOKEN_FILE] *)
Definition dump_resume_token : M unit :=
  fun s =>
    match resume_token s with
    | Some token =>
        (Ok tt, mk_state (resume_token s) (Some token)
                         (trace s ++ [WroteToken token]))
    | None =>
        (Ok tt, mk_state (resume_token s) (Some VNone)
                         (trace s ++ [WroteToken VNone]))
    end.

(** The body of the loop of [UnifiToLoki.run] (lines 126-134) *)
Definition run_body (change : dict) : M unit :=
  (ns <- lift (get_method (VDict change) "ns" (VDict [])) ;;
   coll <- lift (get_method ns "coll" VNone) ;;
   change' <- (if wanted coll then handle_change change else ret change) ;;
   _id <- lift (getitem (VDict change') "_id") ;;
   set_resume_token _id ;;
   dump_resume_token)%prog.

(** [UnifiToLoki.run] over the entries the stream yields (lines 125-137):
    an exception ends the loop, and the failure of the stream is raised
    again as [PyMongoError]. *)
Fixpoint run (stream : list stream_item) : M unit :=
  match stream with
  | [] => ret tt
  | Change change :: rest => (run_body change ;; run rest)%prog
  | StreamFailure :: _ => lift (Raise PyMongoError)
  end.

(** The field each wanted collection takes its row key from
    ([inspection_log] takes it from two). *)
Definition row_key_sources : list (string * string) :=
  [ ("admin_activity_log", "key"); ("alarm", "key"); ("alert", "key");
    ("event", "key"); ("trigger_log", "key");
    ("threat_log_view", "signature");
    ("inspection_log", "log_source"); ("inspection_log", "action") ].

(** The delivery timestamp in the words of the specification: the [time]
    of the document is divided by 1000 if its decimal string has more
    than 10 characters, and the timestamp is [int(time) * 1_000_000_000]
    as a decimal string. *)
Definition spec_timestamp (time : value) : result string :=
  (seconds <- (if (10 <? String.length (py_str time))%nat
               then truediv_1000 time else Ok time) ;
   n <- py_int seconds ;
   Ok (decimal (n * 1000000000)))%result.

(** The tokens written to the resume-token file, and the requests handed
    to [requests.post], one for each call, in a trace. *)
Fixpoint writes (t : list effect) : list value :=
  match t with
  | [] => []
  | WroteToken token :: t' => token :: writes t'
  | Posted _ _ :: t' => writes t'
  end.

Fixpoint posts (t : list effect) : list request :=
  match t with
  | [] => []
  | Posted r _ :: t' => r :: posts t'
  | WroteToken _ :: t' => posts t'
  end.

(** Line 126: [coll = change.get('ns', {}).get('coll')] *)
Definition collection_name (change : dict) : result value :=
  (ns <- get_method (VDict change) "ns" (VDict []) ;
   get_method ns "coll" VNone)%result.

(** The event is skipped: its collection is not a wanted one. *)
Definition skipped (change : dict) : Prop :=
  exists coll, collection_name change = Ok coll /\ wanted coll = false.

(** The event is delivered from the state [s], as the code decides it: its
    collection is wanted, its request is built and sent, a response comes
    back, and [raise_for_status] accepts it, which it does for every status
    outside 400..599 (every 2xx status, and also one such as 304). *)
Definition delivered (s : state) (change : dict) : Prop :=
  exists coll req change' resp,
    collection_name change = Ok coll /\ wanted coll = true
    /\ handle_change_request change = Ok (req, change')
    /\ endpoint (trace s) req = Some resp
    /\ raise_for_status resp = Ok tt.

(** The state after the token [id] has been stored and written. *)
Definition persisted (s : state) (id : value) : state :=
  mk_state (Some id) (Some id) (trace s ++ [WroteToken id]).

(** The state after the request [req] has been sent. *)
Definition sent (s : state) (req : request) : state :=
  mk_state (resume_token s) (token_file s)
           (trace s ++ [Posted req (endpoint (trace s) req)]).

(** The resume-token file holds what it held, and nothing was written. *)
Definition unchanged_position (s s' : state) : Prop :=
  token_file s' = token_file s /\ writes (trace s') = writes (trace s).

(** ** Start-up and the encoder's reach *)

(** The object [UnifiToLoki()] builds: [self.mongo_conn_str],
    [self.loki_host], [self.resume_token] and [self.host]. *)
Record UnifiToLoki := mk_UnifiToLoki {
  self_mongo_conn_str : string;
  self_loki_host : string;
  self_resume_token : option value;
  self_host : string }.

(** [os.environ], and [os.environ[name]] when [name in os.environ]. *)
Definition environ := list (string * string).

Fixpoint environ_get (env : environ) (name : string) : option string :=
  match env with
  | [] => None
  | (n, v) :: t => if String.eqb n name then Some v else environ_get t name
  end.

(** How [__init__] ends: with the object, or with [RuntimeError]. *)
Inductive startup : Type :=
| Started (self : UnifiToLoki)
| RuntimeError (message : string).

(** [UnifiToLoki.__init__] (lines 92-111).  [file] is what
    [resume_token.pkl] holds, [None] when there is no such file, and
    [hostname] is what [gethostname()] returns. *)
Definition __init__ (env : environ) (file : option value) (hostname : string)
  : startup :=
  match environ_get env "MONGODB_CONN_STR" with
  | None =>
      RuntimeError "ERROR: Must set the MONGODB_CONN_STR environment variable."
  | Some mongo_conn_str =>
      match environ_get env "LOKI_HOST" with
      | None =>
          RuntimeError "ERROR: Must set the LOKI_HOST environment variable."
      | Some loki =>
          Started (mk_UnifiToLoki
                     mongo_conn_str loki file
                     (match environ_get env "LOG_HOST" with
                      | Some log_host => log_host
                      | None => hostname
                      end))
      end
  end.

(** No [ObjectId] occurs in the value, at any depth: the value is made of
    [None], booleans, numbers, strings, datetimes, lists and mappings
    only.  An [ObjectId] is handed on by [MagicEncoder.default] to
    [JSONEncoder.default]. *)
Fixpoint serializable (o : value) : bool :=
  match o with
  | VObjectId _ => false
  | VList l => forallb serializable l
  | VDict d => forallb (fun kv => serializable (snd kv)) d
  | _ => true
  end.

(** The [time] is of a type that has neither [/] nor [int()]. *)
Definition timeless_type (time : value) : bool :=
  match time with
  | VNone | VDatetime _ | VObjectId _ | VList _ | VDict _ => true
  | VBool _ | VInt _ | VFloat _ | VStr _ => false
  end.

(** The entries of a one-level mapping under their joined keys. *)
Definition joined (parent_key separator : string) (d : dict) : dict :=
  map (fun kv => (new_key parent_key separator (fst kv), snd kv)) d.

(** The outcome of [dumps] on a value of [value]: a tree when no
    [ObjectId] occurs in it, and the [TypeError] of [JSONEncoder.default]
    when one does. *)
Definition dumps_outcome (o : value) : Prop :=
  if serializable o then exists j, dumps o = Ok j
  else dumps o = Raise TypeError.

(** One more call of [requests.post] than tokens written may have been
    made when the loop ended with an exception, and none when it ended
    without. *)
Definition unconfirmed_allowance {A : Type} (r : result A) : nat :=
  match r with Ok _ => 0%nat | Raise _ => 1%nat end.

(** * Properties *)

#[local] Set Default Proof Using "Type".

(** ** Dictionaries *)

Lemma dict_get_set_same (d : dict) (k : string) (v : value) :
  dict_get (dict_set d k v) k = Some v.
Proof.
  induction d as [|[k' v'] t IH]; simpl.
  - now rewrite String.eqb_refl.
  - destruct (String.eqb k' k) eqn:E; simpl; rewrite E; [reflexivity|exact IH].
Qed.

Lemma dict_get_set_other (d : dict) (k k' : string) (v : value) :
  k <> k' -> dict_get (dict_set d k v) k' = dict_get d k'.
Proof.
  intros Hne. induction d as [|[k0 v0] t IH]; simpl.
  - destruct (String.eqb k k') eqn:E; [|reflexivity].
    apply String.eqb_eq in E. contradiction.
  - destruct (String.eqb k0 k) eqn:E; simpl.
    + apply String.eqb_eq in E. subst k0.
      destruct (String.eqb k k') eqn:E'; [|reflexivity].
      apply String.eqb_eq in E'. contradiction.
    + now rewrite IH.
Qed.

Lemma dict_get_in_keys (d : dict) (k : string) :
  In k (keys d) <-> dict_get d k <> None.
Proof.
  induction d as [|[k' v'] t IH]; simpl.
  - split; [intros []|congruence].
  - destruct (String.eqb k' k) eqn:E.
    + apply String.eqb_eq in E. split; [congruence|auto].
    + apply String.eqb_neq in E. rewrite <- IH.
      split; [intros [?|?]; [contradiction|assumption]|intros ?; now right].
Qed.

Lemma dict_set_fresh (d : dict) (k : string) (v : value) :
  ~ In k (keys d) -> dict_set d k v = (d ++ [(k, v)])%list.
Proof.
  induction d as [|[k' v'] t IH]; simpl; intros Hn; [reflexivity|].
  destruct (String.eqb k' k) eqn:E.
  - apply String.eqb_eq in E. exfalso. apply Hn. now left.
  - rewrite IH; [reflexivity|]. intros H. apply Hn. now right.
Qed.

Lemma keys_dict_set (d : dict) (k : string) (v : value) :
  keys (dict_set d k v) = if in_dec string_dec k (keys d) then keys d
                          else (keys d ++ [k])%list.
Proof.
  induction d as [|[k' v'] t IH]; simpl; [reflexivity|].
  destruct (String.eqb k' k) eqn:E; simpl.
  - apply String.eqb_eq in E. subst.
    destruct (string_dec k k); [|congruence].
    destruct (in_dec string_dec k (keys t)); reflexivity.
  - apply String.eqb_neq in E. rewrite IH.
    destruct (string_dec k' k); [contradiction|].
    destruct (in_dec string_dec k (keys t)); reflexivity.
Qed.

Lemma NoDup_keys_dict_set (d : dict) (k : string) (v : value) :
  NoDup (keys d) -> NoDup (keys (dict_set d k v)).
Proof.
  intros Hd. rewrite keys_dict_set.
  destruct (in_dec string_dec k (keys d)) as [|Hn]; [assumption|].
  apply NoDup_app; [assumption|repeat constructor; intros []|].
  intros x Hx [<-|[]]. contradiction.
Qed.

Lemma flat_dict_set (d : dict) (k : string) (v : value) :
  flat d -> is_mapping v = false -> flat (dict_set d k v).
Proof.
  unfold flat. intros Hd Hv. induction Hd as [|[k' v'] t Hh Ht IH]; simpl.
  - repeat constructor. exact Hv.
  - destruct (String.eqb k' k); constructor; assumption.
Qed.

(** [dict(items)], started from the dictionary [acc]. *)
Lemma fold_dict_set_invariant (items : list (string * value)) :
  forall acc,
    flat items -> flat acc -> NoDup (keys acc) ->
    let d := fold_left (fun d kv => dict_set d (fst kv) (snd kv)) items acc in
    flat d /\ NoDup (keys d).
Proof.
  induction items as [|[k v] t IH]; simpl; intros acc Hi Ha Hn;
    [split; assumption|].
  inversion Hi; subst. apply IH; [assumption| |].
  - apply flat_dict_set; assumption.
  - apply NoDup_keys_dict_set; assumption.
Qed.

Lemma fold_dict_set_fresh (items : list (string * value)) :
  forall acc,
    NoDup (keys acc ++ keys items) ->
    fold_left (fun d kv => dict_set d (fst kv) (snd kv)) items acc
    = (acc ++ items)%list.
Proof.
  induction items as [|[k v] t IH]; simpl; intros acc Hn.
  - now rewrite app_nil_r.
  - rewrite dict_set_fresh.
    + rewrite IH.
      * now rewrite <- app_assoc.
      * unfold keys in *. rewrite map_app, <- app_assoc. exact Hn.
    + apply NoDup_remove_2 in Hn. intros Hin. apply Hn.
      apply in_or_app. now left.
Qed.

(** A list of pairs with distinct keys is the dictionary it builds. *)
Lemma dict_of_items_NoDup (items : list (string * value)) :
  NoDup (keys items) -> dict_of_items items = items.
Proof.
  intros Hn. unfold dict_of_items. now rewrite fold_dict_set_fresh.
Qed.

(** ** [flatten] *)

(** [flatten] is [dict(items)] for the items its loop collects. *)
Lemma flatten_unfold (d : dict) (pk sep : string) :
  flatten d pk sep = dict_of_items (flatten_items d pk sep).
Proof.
  unfold flatten. simpl. f_equal.
  induction d as [|[k x] t IH]; simpl; [reflexivity|].
  rewrite IH. destruct x; reflexivity.
Qed.

(** Induction on the nesting of a dictionary. *)
Lemma dict_nested_ind (P : dict -> Prop) :
  (forall d, (forall k sub, In (k, VDict sub) d -> P sub) -> P d) ->
  forall d, P d.
Proof.
  intros H.
  assert (HV : forall v, match v with VDict d => P d | _ => True end).
  { fix IH 1. intros [ | | | | | | | | d]; try exact I.
    apply H. revert d. fix IHd 1. intros [|[k x] t] k' sub Hin.
    - destruct Hin.
    - destruct Hin as [Heq|Hin].
      + pose proof (IH x) as Hx. inversion Heq; subst. exact Hx.
      + exact (IHd t k' sub Hin). }
  intros d. exact (HV (VDict d)).
Qed.

Lemma flatten_items_flat_top (d : dict) (separator : string) :
  flat d -> flatten_items d "" separator = d.
Proof.
  induction 1 as [|[k x] t Hx Ht IH]; simpl; [reflexivity|].
  rewrite IH. destruct x; try reflexivity. discriminate.
Qed.

(** Whatever the nesting, [flatten] returns a single-level mapping. *)
Lemma flatten_flat_NoDup (d : dict) :
  forall parent_key separator,
    flat (flatten d parent_key separator)
    /\ NoDup (keys (flatten d parent_key separator)).
Proof.
  induction d as [d IH] using dict_nested_ind. intros pk sep.
  rewrite flatten_unfold. unfold dict_of_items.
  apply fold_dict_set_invariant; [|constructor|constructor].
  induction d as [|[k x] t IHt]; simpl; [constructor|].
  apply Forall_app. split.
  - destruct x; try (repeat constructor; reflexivity).
    apply (IH k d). now left.
  - apply IHt. intros k' sub Hin. apply (IH k' sub). now right.
Qed.

(** [flatten] leaves a single-level mapping with distinct keys as it is. *)
Lemma flatten_flat_id (d : dict) (separator : string) :
  flat d -> NoDup (keys d) -> flatten d "" separator = d.
Proof.
  intros Hf Hn. rewrite flatten_unfold, flatten_items_flat_top by assumption.
  now apply dict_of_items_NoDup.
Qed.

(** C8: [flatten] is a function of its arguments alone, defined on every
    nested mapping however deep, and its result is always a single-level
    mapping with distinct keys; on a mapping [x] whose values are all
    non-mappings, [flatten(flatten(x)) == flatten(x)]. *)
Theorem flatten_total_idempotent_on_flat :
  (forall x parent_key separator,
      exists y, flatten x parent_key separator = y /\ flat y /\ NoDup (keys y))
  /\ (forall x, flat x ->
        flatten (flatten x "" "_") "" "_" = flatten x "" "_").
Proof.
  split.
  - intros x pk sep. exists (flatten x pk sep).
    split; [reflexivity|apply flatten_flat_NoDup].
  - intros x _. destruct (flatten_flat_NoDup x "" "_") as [Hf Hn].
    now apply flatten_flat_id.
Qed.

(** ** The Label Deriver *)

Lemma string_app_assoc (a b c : string) : (a ++ b) ++ c = a ++ (b ++ c).
Proof. induction a as [|x a IH]; simpl; [reflexivity|now rewrite IH]. Qed.

Lemma eq_str_true (x : value) (s : string) : eq_str x s = true <-> x = VStr s.
Proof.
  destruct x; simpl; try (split; [discriminate|intros [=]]).
  rewrite String.eqb_eq. split; [now intros ->|now intros [= ->]].
Qed.

Lemma wanted_true (coll : value) :
  wanted coll = true <-> exists c, coll = VStr c /\ In c WANTED_COLLECTIONS.
Proof.
  unfold wanted. rewrite existsb_exists. split.
  - intros [c [Hin Heq]]. apply eq_str_true in Heq. eauto.
  - intros [c [-> Hin]]. exists c. split; [assumption|now apply eq_str_true].
Qed.

Lemma labels_row_key (collection row_key : value) :
  dict_get (dict_set (fixed_labels collection) "row_key" row_key) "row_key"
  = Some row_key.
Proof. apply dict_get_set_same. Qed.

(** The row key of the collections that take it from one field. *)
Lemma labels_of_field (change : dict) (c field : string) :
  dict_get change "collection" = Some (VStr c) ->
  In (c, field)
     [ ("admin_activity_log", "key"); ("alarm", "key"); ("alert", "key");
       ("event", "key"); ("trigger_log", "key");
       ("threat_log_view", "signature") ] ->
  exists labels,
    _labels_for_change change = Ok labels /\
    dict_get labels "row_key"
    = Some (dict_get_default change field (VStr "unknown")).
Proof.
  intros Hc Hin. unfold _labels_for_change, getitem. rewrite Hc. simpl rbind.
  simpl in Hin.
  repeat (destruct Hin as [[= <- <-]|Hin];
          [simpl; eexists; (split; [reflexivity|]); apply labels_row_key|]).
  destruct Hin.
Qed.

(** The row key of [inspection_log], and when none is derived. *)
Lemma labels_of_inspection_log (change : dict) :
  dict_get change "collection" = Some (VStr "inspection_log") ->
  match dict_get_default change "log_source" (VStr ""),
        dict_get_default change "action" (VStr "") with
  | VStr log_source, VStr action =>
      exists labels,
        _labels_for_change change = Ok labels /\
        dict_get labels "row_key" = Some (VStr (log_source ++ "/" ++ action))
  | _, _ => _labels_for_change change = Raise TypeError
  end.
Proof.
  intros Hc. unfold _labels_for_change, getitem. rewrite Hc. simpl.
  destruct (dict_get_default change "log_source" (VStr "")); simpl;
    try reflexivity.
  destruct (dict_get_default change "action" (VStr "")); simpl;
    try reflexivity.
  eexists; split; [reflexivity|]. simpl.
  now rewrite string_app_assoc.
Qed.

(** C3: for a document of a wanted collection the row key is the one of the
    table: the field [key], or [unknown] without it, for
    [admin_activity_log], [alarm], [alert], [event] and [trigger_log]; the
    field [signature], or [unknown], for [threat_log_view]; and for
    [inspection_log] the string [log_source], [/], [action], with the empty
    string for a missing field (the two fields being strings: with a field
    of another type the concatenation raises [TypeError] and no row key is
    derived). *)
Theorem row_key_matches_table (change : dict) (c : string) :
  dict_get change "collection" = Some (VStr c) ->
  In c WANTED_COLLECTIONS ->
  (In c ["admin_activity_log"; "alarm"; "alert"; "event"; "trigger_log"] ->
   exists labels,
     _labels_for_change change = Ok labels /\
     dict_get labels "row_key"
     = Some (dict_get_default change "key" (VStr "unknown")))
  /\ (c = "threat_log_view" ->
      exists labels,
        _labels_for_change change = Ok labels /\
        dict_get labels "row_key"
        = Some (dict_get_default change "signature" (VStr "unknown")))
  /\ (c = "inspection_log" ->
      match dict_get_default change "log_source" (VStr ""),
            dict_get_default change "action" (VStr "") with
      | VStr log_source, VStr action =>
          exists labels,
            _labels_for_change change = Ok labels /\
            dict_get labels "row_key" = Some (VStr (log_source ++ "/" ++ action))
      | _, _ => _labels_for_change change = Raise TypeError
      end).
Proof.
  intros Hc Hw. split; [|split].
  - intros Hk. apply (labels_of_field change c "key" Hc).
    simpl in Hk. simpl.
    repeat (destruct Hk as [<-|Hk]; [auto 10|]). destruct Hk.
  - intros ->. apply (labels_of_field change "threat_log_view" "signature" Hc).
    simpl. auto 10.
  - intros ->. exact (labels_of_inspection_log change Hc).
Qed.

(** C7, as the code has it: for a document whose [collection] is none of
    the wanted collections no branch of the chain applies, and the labels
    are returned without a [row_key]; nothing is raised. *)
Theorem labels_of_unwanted_collection (change : dict) (collection : value) :
  dict_get change "collection" = Some collection ->
  wanted collection = false ->
  _labels_for_change change = Ok (fixed_labels collection)
  /\ dict_get (fixed_labels collection) "row_key" = None.
Proof.
  intros Hc Hw. unfold _labels_for_change, getitem. rewrite Hc. simpl rbind.
  unfold wanted in Hw. simpl in Hw.
  repeat (apply orb_false_elim in Hw; destruct Hw as [?H Hw]).
  split; [|reflexivity].
  repeat match goal with H : eq_str _ _ = false |- _ => rewrite H; clear H end.
  reflexivity.
Qed.

Lemma rbind_ok {A B : Type} (r : result A) (k : A -> result B) (b : B) :
  rbind r k = Ok b -> exists a, r = Ok a /\ k a = Ok b.
Proof. destruct r as [a|e]; simpl; [eauto|discriminate]. Qed.

Ltac rbind_inv H :=
  let a := fresh "x" in
  let Ha := fresh "H" a in
  apply rbind_ok in H; destruct H as [a [Ha H]].

Lemma dict_get_In (d : dict) (k : string) (v : value) :
  dict_get d k = Some v -> In (k, v) d.
Proof.
  induction d as [|[k' v'] t IH]; simpl; [discriminate|].
  destruct (String.eqb k' k) eqn:E.
  - apply String.eqb_eq in E. intros [= ->]. left. now subst.
  - intros H. right. now apply IH.
Qed.

Lemma keys_dict_set_incl (d : dict) (k k' : string) (v : value) :
  In k' (keys d) \/ k' = k -> In k' (keys (dict_set d k v)).
Proof.
  rewrite keys_dict_set.
  destruct (in_dec string_dec k (keys d)) as [Hin|Hn]; intros [H| ->];
    try assumption; apply in_or_app; [now left|right; now left].
Qed.

(** Every key of the items is a key of [dict(items)]. *)
Lemma keys_fold_dict_set (items : list (string * value)) :
  forall acc k,
    In k (keys acc) \/ In k (keys items) ->
    In k (keys (fold_left (fun d kv => dict_set d (fst kv) (snd kv)) items acc)).
Proof.
  induction items as [|[k0 v0] t IH]; simpl; intros acc k H.
  - destruct H as [H|[]]. exact H.
  - apply IH. destruct H as [H|[H|H]].
    + left. apply keys_dict_set_incl. now left.
    + left. apply keys_dict_set_incl. now right.
    + now right.
Qed.

Lemma keys_flatten_items (d : dict) (parent_key separator k : string) :
  In k (keys (flatten_items d parent_key separator)) ->
  In k (keys (flatten d parent_key separator)).
Proof.
  intros H. rewrite flatten_unfold. apply keys_fold_dict_set. now right.
Qed.

(** A scalar entry of a mapping is found under its joined key. *)
Lemma flatten_items_scalar (d : dict) (parent_key separator k : string)
      (v : value) :
  In (k, v) d -> is_mapping v = false ->
  In (new_key parent_key separator k)
     (keys (flatten_items d parent_key separator)).
Proof.
  intros Hin Hv. induction d as [|[k' x] t IH]; [destruct Hin|].
  simpl. unfold keys. rewrite map_app. apply in_or_app.
  destruct Hin as [[= -> ->]|Hin].
  - left. destruct v; try (now left). discriminate.
  - right. now apply IH.
Qed.

(** A scalar entry of a sub-mapping is found under the key joined twice. *)
Lemma flatten_items_nested (d sub : dict) (parent_key separator p k : string)
      (v : value) :
  In (p, VDict sub) d -> In (k, v) sub -> is_mapping v = false ->
  In (new_key (new_key parent_key separator p) separator k)
     (keys (flatten_items d parent_key separator)).
Proof.
  intros Hin Hsub Hv. induction d as [|[k' x] t IH]; [destruct Hin|].
  simpl. unfold keys. rewrite map_app. apply in_or_app.
  destruct Hin as [[= -> ->]|Hin].
  - left. apply keys_flatten_items. now apply flatten_items_scalar with (v := v).
  - right. now apply IH.
Qed.


(** What [handle_change] hands to the Label Deriver and to [flatten] is the
    same, un-flattened, document. *)
Lemma handle_change_request_parts (change change' : dict) (req : request) :
  handle_change_request change = Ok (req, change') ->
  exists document labels,
    dict_get change' "fullDocument" = Some (VDict document)
    /\ _labels_for_change document = Ok labels
    /\ dumps (VDict labels) = Ok (req_stream req)
    /\ dumps (VDict (flatten document "" "_")) = Ok (req_line req)
    /\ timestamp document = Ok (req_ts req).
Proof.
  unfold handle_change_request. intros H.
  do 10 rbind_inv H.
  injection H as <- <-.
  exists x4, x6. rewrite dict_get_set_same. simpl. auto.
Qed.

(** A row-key source field found only inside a sub-mapping does not reach
    the row key. *)
Lemma nested_source_fallback
        (change sub : dict) (c field parent : string) (v : value) :
  dict_get change "collection" = Some (VStr c) ->
  In (c, field) row_key_sources ->
  dict_get change field = None ->
  dict_get change parent = Some (VDict sub) ->
  dict_get sub field = Some v ->
  is_mapping v = false ->
  In (new_key parent "_" field) (keys (flatten change "" "_"))
  /\ (c <> "inspection_log" ->
      exists labels,
        _labels_for_change change = Ok labels /\
        dict_get labels "row_key" = Some (VStr "unknown"))
  /\ (c = "inspection_log" -> field = "log_source" ->
      match dict_get_default change "action" (VStr "") with
      | VStr action =>
          exists labels,
            _labels_for_change change = Ok labels /\
            dict_get labels "row_key" = Some (VStr ("/" ++ action))
      | _ => _labels_for_change change = Raise TypeError
      end)
  /\ (c = "inspection_log" -> field = "action" ->
      match dict_get_default change "log_source" (VStr "") with
      | VStr log_source =>
          exists labels,
            _labels_for_change change = Ok labels /\
            dict_get labels "row_key" = Some (VStr (log_source ++ "/"))
      | _ => _labels_for_change change = Raise TypeError
      end).
Proof.
  intros Hc Hsrc Htop Hpar Hsub Hv.
  split.
  { apply keys_flatten_items.
    apply (flatten_items_nested change sub "" "_" parent field v);
      auto using dict_get_In. }
  split; [|split].
  - intros Hne.
    destruct (labels_of_field change c field Hc) as [labels [Hl Hr]].
    + simpl in Hsrc.
      destruct Hsrc as [H|[H|[H|[H|[H|[H|[H|[H|[]]]]]]]]];
        injection H as <- <-; try congruence; simpl; auto 10.
    + exists labels. split; [assumption|]. rewrite Hr.
      unfold dict_get_default. now rewrite Htop.
  - intros -> ->. pose proof (labels_of_inspection_log change Hc) as Hins.
    unfold dict_get_default in Hins at 1. rewrite Htop in Hins. exact Hins.
  - intros -> ->. pose proof (labels_of_inspection_log change Hc) as Hins.
    unfold dict_get_default in Hins at 2. rewrite Htop in Hins.
    destruct (dict_get_default change "log_source" (VStr "")); exact Hins.
Qed.

(** C9: the labels are derived from the document as it is before
    flattening: [handle_change] passes one and the same document to
    [_labels_for_change] and to [flatten].  When the field a wanted collection takes its row key from
    is absent at the top level of the document and present only inside a
    sub-mapping, the flattened record has the joined key of the nested
    field, and the row key is the fallback all the same: [unknown], and for
    [inspection_log] an empty component on that side of the [/]. *)
Theorem nested_row_key_source_is_ignored :
  (forall (change change' : dict) (req : request),
      handle_change_request change = Ok (req, change') ->
      exists document labels,
        dict_get change' "fullDocument" = Some (VDict document)
        /\ _labels_for_change document = Ok labels
        /\ dumps (VDict labels) = Ok (req_stream req)
        /\ dumps (VDict (flatten document "" "_")) = Ok (req_line req))
  /\ (forall (change sub : dict) (c field parent : string) (v : value),
      dict_get change "collection" = Some (VStr c) ->
      In (c, field) row_key_sources ->
      dict_get change field = None ->
      dict_get change parent = Some (VDict sub) ->
      dict_get sub field = Some v ->
      is_mapping v = false ->
      In (new_key parent "_" field) (keys (flatten change "" "_"))
      /\ (c <> "inspection_log" ->
          exists labels,
            _labels_for_change change = Ok labels /\
            dict_get labels "row_key" = Some (VStr "unknown"))
      /\ (c = "inspection_log" -> field = "log_source" ->
          match dict_get_default change "action" (VStr "") with
          | VStr action =>
              exists labels,
                _labels_for_change change = Ok labels /\
                dict_get labels "row_key" = Some (VStr ("/" ++ action))
          | _ => _labels_for_change change = Raise TypeError
          end)
      /\ (c = "inspection_log" -> field = "action" ->
          match dict_get_default change "log_source" (VStr "") with
          | VStr log_source =>
              exists labels,
                _labels_for_change change = Ok labels /\
                dict_get labels "row_key" = Some (VStr (log_source ++ "/"))
          | _ => _labels_for_change change = Raise TypeError
          end)).
Proof.
  split.
  - intros change change' req H.
    destruct (handle_change_request_parts change change' req H)
      as [document [labels [H1 [H2 [H3 [H4 _]]]]]].
    exists document, labels. auto.
  - exact nested_source_fallback.
Qed.


(** ** The Record Encoder *)

(** Lines 167-169 on a document, against the specification's words. *)
Lemma encode_time_spec (change : dict) (time : value) :
  dict_get change "time" = Some time ->
  rbind (normalize_time change) timestamp = spec_timestamp time.
Proof.
  intros Ht. unfold normalize_time, timestamp, spec_timestamp, getitem.
  rewrite Ht. simpl rbind.
  destruct (10 <? String.length (py_str time))%nat.
  - destruct (truediv_1000 time) as [seconds|e]; simpl; [|reflexivity].
    now rewrite dict_get_set_same.
  - simpl. now rewrite Ht.
Qed.

(** The document [handle_change] works on: the [fullDocument] of the event
    with [collection] set and [_id] turned into its string. *)
Lemma handle_change_request_document (change change' : dict) (req : request) :
  handle_change_request change = Ok (req, change') ->
  exists ns coll fullDocument _id document,
    dict_get change "ns" = Some ns
    /\ getitem ns "coll" = Ok coll
    /\ dict_get change "fullDocument" = Some (VDict fullDocument)
    /\ dict_get fullDocument "_id" = Some _id
    /\ normalize_time
         (dict_set (dict_set fullDocument "collection" coll) "_id"
                   (VStr (py_str _id))) = Ok document
    /\ timestamp document = Ok (req_ts req)
    /\ change' = dict_set change "fullDocument" (VDict document).
Proof.
  unfold handle_change_request. intros H. do 10 rbind_inv H.
  injection H as <- <-.
  unfold getitem in Hx, Hx1.
  destruct (dict_get change "ns") as [ns|] eqn:Hns; [|discriminate].
  destruct (dict_get change "fullDocument") as [fd|] eqn:Hfd; [|discriminate].
  injection Hx as <-. injection Hx1 as <-.
  destruct fd as [ | | | | | | | | fd]; try discriminate.
  simpl in Hx2. injection Hx2 as <-.
  unfold getitem in Hx3.
  destruct (dict_get (dict_set fd "collection" x0) "_id") as [i|] eqn:Hid;
    [|discriminate].
  injection Hx3 as <-.
  rewrite dict_get_set_other in Hid by discriminate.
  exists ns, x0, fd, i, x4. simpl. auto 10.
Qed.

(** C4: the [time] of the document is divided by 1000 exactly when its
    [str] has more than 10 characters, and the timestamp of the request is
    [int(time) * 1_000_000_000] in decimal; [time = 1700000000000] and
    [time = 1700000000] both give ["1700000000000000000"], also as the
    timestamp of the request of an alert with that [time]. *)
Theorem timestamp_normalization :
  (forall (change : dict) (time : value),
      dict_get change "time" = Some time ->
      rbind (normalize_time change) timestamp = spec_timestamp time)
  /\ (forall (change change' : dict) (req : request),
         handle_change_request change = Ok (req, change') ->
         exists fullDocument time,
           dict_get change "fullDocument" = Some (VDict fullDocument)
           /\ dict_get fullDocument "time" = Some time
           /\ spec_timestamp time = Ok (req_ts req))
  /\ spec_timestamp (VInt 1700000000000) = Ok "1700000000000000000"
  /\ spec_timestamp (VInt 1700000000) = Ok "1700000000000000000"
  /\ (exists req change',
         handle_change_request alert_event = Ok (req, change')
         /\ req_ts req = "1700000000000000000")
  /\ (exists req change',
         handle_change_request alert_event_seconds = Ok (req, change')
         /\ req_ts req = "1700000000000000000").
Proof.
  split; [exact encode_time_spec|].
  split; [|repeat split; try reflexivity;
           eexists; eexists; split; reflexivity].
  intros change change' req H.
  destruct (handle_change_request_document change change' req H)
    as (ns & coll & fd & i & doc & _ & _ & Hfd & _ & Hn & Hts & _).
  destruct (dict_get fd "time") as [time|] eqn:Ht.
  - exists fd, time. split; [assumption|]. split; [exact Ht|].
    rewrite <- (encode_time_spec
                  (dict_set (dict_set fd "collection" coll) "_id"
                            (VStr (py_str i))) time).
    + rewrite Hn. exact Hts.
    + rewrite !dict_get_set_other by discriminate. exact Ht.
  - unfold normalize_time, getitem in Hn.
    rewrite !dict_get_set_other in Hn by discriminate.
    rewrite Ht in Hn. discriminate.
Qed.

(** C6: a wanted-collection event whose document has no [_id], or no
    [time], makes [handle_change] raise ([KeyError]) before any payload is
    built: nothing is posted and the state is left as it was. *)
Theorem missing_time_or_id_fails
        (change fullDocument : dict) (ns coll : value) :
  dict_get change "ns" = Some ns ->
  getitem ns "coll" = Ok coll ->
  wanted coll = true ->
  dict_get change "fullDocument" = Some (VDict fullDocument) ->
  dict_get fullDocument "_id" = None \/ dict_get fullDocument "time" = None ->
  exists key,
    (key = "_id" \/ key = "time")
    /\ handle_change_request change = Raise (KeyError key)
    /\ forall s,
        handle_change change s = (Raise (KeyError key), s)
        /\ run_body change s = (Raise (KeyError key), s).
Proof.
  intros Hns Hcoll Hw Hfd Hmiss.
  assert (Hreq : exists key, (key = "_id" \/ key = "time")
                 /\ handle_change_request change = Raise (KeyError key)).
  { unfold handle_change_request. cbn [getitem]. rewrite Hns. cbn [rbind].
    rewrite Hcoll. cbn [rbind]. rewrite Hfd. cbn [rbind setitem].
    rewrite dict_get_set_other by discriminate.
    destruct (dict_get fullDocument "_id") as [i|] eqn:Hid.
    - destruct Hmiss as [|Ht]; [discriminate|]. exists "time". split; [auto|].
      cbn [rbind]. unfold normalize_time. cbn [getitem].
      rewrite !dict_get_set_other by discriminate. now rewrite Ht.
    - exists "_id". split; [auto|]. reflexivity. }
  destruct Hreq as [key [Hkey Hreq]]. exists key. split; [assumption|].
  split; [assumption|]. intros s.
  assert (Hh : handle_change change s = (Raise (KeyError key), s)).
  { unfold handle_change, bind, lift. now rewrite Hreq. }
  split; [assumption|].
  unfold run_body, bind, lift, get_method, dict_get_default. rewrite Hns.
  destruct ns as [ | | | | | | | | nsd]; try discriminate.
  unfold getitem in Hcoll.
  destruct (dict_get nsd "coll") as [c|] eqn:Hc; [|discriminate].
  injection Hcoll as ->. rewrite Hw, Hh. reflexivity.
Qed.


(** ** The Ingestion Client and the consumer loop *)

Lemma writes_app (t t' : list effect) :
  writes (t ++ t') = (writes t ++ writes t')%list.
Proof.
  induction t as [|[r a|token] t IH]; simpl; [reflexivity|exact IH|now rewrite IH].
Qed.

Lemma posts_app (t t' : list effect) :
  posts (t ++ t') = (posts t ++ posts t')%list.
Proof.
  induction t as [|[r a|token] t IH]; simpl; [reflexivity|now rewrite IH|exact IH].
Qed.

(** [handle_change], case by case. *)
Lemma handle_change_cases (change : dict) (s : state) :
  handle_change change s =
  match handle_change_request change with
  | Raise e => (Raise e, s)
  | Ok (req, change') =>
      match endpoint (trace s) req with
      | None => (Raise ConnectionError, sent s req)
      | Some resp =>
          (rbind (raise_for_status resp) (fun _ => Ok change'), sent s req)
      end
  end.
Proof.
  unfold handle_change, bind, lift, post, sent, ret.
  destruct (handle_change_request change) as [[req change']|e]; [|reflexivity].
  simpl. destruct (endpoint (trace s) req) as [resp|]; [|reflexivity].
  destruct (raise_for_status resp) as [[]|e]; reflexivity.
Qed.

(** The body of the loop, case by case. *)
Lemma run_body_cases (change : dict) (s : state) :
  run_body change s =
  match collection_name change with
  | Raise e => (Raise e, s)
  | Ok coll =>
      if wanted coll then
        match handle_change change s with
        | (Raise e, s1) => (Raise e, s1)
        | (Ok change', s1) =>
            match dict_get change' "_id" with
            | Some id => (Ok tt, persisted s1 id)
            | None => (Raise (KeyError "_id"), s1)
            end
        end
      else
        match dict_get change "_id" with
        | Some id => (Ok tt, persisted s id)
        | None => (Raise (KeyError "_id"), s)
        end
  end.
Proof.
  unfold run_body, collection_name, bind, lift, ret. cbn [get_method rbind].
  destruct (get_method (dict_get_default change "ns" (VDict [])) "coll" VNone)
    as [coll|e]; [|reflexivity].
  destruct (wanted coll).
  - destruct (handle_change change s) as [[change'|e] s1]; [|reflexivity].
    cbn [getitem]. destruct (dict_get change' "_id"); reflexivity.
  - cbn [getitem]. destruct (dict_get change "_id"); reflexivity.
Qed.

Lemma raise_for_status_ok (resp : response) :
  raise_for_status resp = Ok tt <-> ~ (400 <= status_code resp < 600).
Proof.
  unfold raise_for_status.
  destruct (400 <=? status_code resp) eqn:E1;
    destruct (status_code resp <? 600) eqn:E2; simpl;
    rewrite ?Z.leb_le, ?Z.leb_gt, ?Z.ltb_lt, ?Z.ltb_ge in *;
    split; intros H; try reflexivity; try discriminate; lia.
Qed.

Lemma raise_for_status_error (resp : response) :
  400 <= status_code resp < 600 ->
  raise_for_status resp = Raise (HTTPError (status_code resp) (text resp)).
Proof.
  intros [H1 H2]. unfold raise_for_status.
  apply Z.leb_le in H1. apply Z.ltb_lt in H2. now rewrite H1, H2.
Qed.

(** C2, as the code has it: once the request is built and the endpoint has
    answered, the attempt succeeds exactly when the status is outside
    400..599 (so on every 2xx status), and on a status from 400 to 599 it
    fails with an [HTTPError] that carries the status code and the body of
    the response.  The request is sent once in either case. *)
Theorem delivery_succeeds_unless_4xx_5xx
        (change change' : dict) (req : request) (resp : response) (s : state) :
  handle_change_request change = Ok (req, change') ->
  endpoint (trace s) req = Some resp ->
  (fst (handle_change change s) = Ok change'
   <-> ~ (400 <= status_code resp < 600))
  /\ (400 <= status_code resp < 600 ->
      fst (handle_change change s)
      = Raise (HTTPError (status_code resp) (text resp)))
  /\ (200 <= status_code resp < 300 ->
      fst (handle_change change s) = Ok change')
  /\ posts (trace (snd (handle_change change s)))
     = (posts (trace s) ++ [req])%list.
Proof.
  intros Hreq Hresp. rewrite handle_change_cases, Hreq, Hresp. cbn [fst snd].
  assert (Hok : rbind (raise_for_status resp) (fun _ => Ok change') = Ok change'
                <-> ~ (400 <= status_code resp < 600)).
  { rewrite <- raise_for_status_ok.
    destruct (raise_for_status resp) as [[]|e]; simpl;
      split; intros H; try reflexivity; discriminate. }
  split; [exact Hok|]. split; [|split].
  - intros H. now rewrite raise_for_status_error.
  - intros H. apply Hok. lia.
  - unfold sent. cbn [trace]. rewrite posts_app, Hresp. reflexivity.
Qed.


(** An event whose collection is not wanted is only recorded. *)
Lemma run_body_skip (change : dict) (coll id : value) (s : state) :
  collection_name change = Ok coll ->
  wanted coll = false ->
  dict_get change "_id" = Some id ->
  run_body change s = (Ok tt, persisted s id).
Proof.
  intros Hc Hw Hid. now rewrite run_body_cases, Hc, Hw, Hid.
Qed.

Lemma posts_persisted (s : state) (id : value) :
  posts (trace (persisted s id)) = posts (trace s).
Proof. unfold persisted. cbn [trace]. rewrite posts_app. apply app_nil_r. Qed.

(** C5: an event whose collection is not in the wanted set is not handed to
    [handle_change], so that no request is sent, and its id is stored and
    written to the resume-token file. *)
Theorem unwanted_event_not_posted_but_persisted
        (change : dict) (coll id : value) (s : state) :
  collection_name change = Ok coll ->
  wanted coll = false ->
  dict_get change "_id" = Some id ->
  run_body change s = (Ok tt, persisted s id)
  /\ posts (trace (snd (run_body change s))) = posts (trace s)
  /\ token_file (snd (run_body change s)) = Some id
  /\ writes (trace (snd (run_body change s))) = (writes (trace s) ++ [id])%list.
Proof.
  intros Hc Hw Hid. rewrite (run_body_skip change coll id s Hc Hw Hid).
  cbn [snd]. split; [reflexivity|]. split; [apply posts_persisted|].
  split; [reflexivity|]. unfold persisted. cbn [trace]. now rewrite writes_app.
Qed.

(** C10: the filter does not raise on an event without [ns], or with an
    [ns] mapping without [coll]: the collection is then [None], which is
    not wanted, and the event is skipped and its id persisted. *)
Theorem filter_total_on_missing_ns_or_coll
        (change : dict) (id : value) (s : state) :
  dict_get change "ns" = None
  \/ (exists ns, dict_get change "ns" = Some (VDict ns)
                 /\ dict_get ns "coll" = None) ->
  dict_get change "_id" = Some id ->
  collection_name change = Ok VNone
  /\ wanted VNone = false
  /\ run_body change s = (Ok tt, persisted s id)
  /\ posts (trace (snd (run_body change s))) = posts (trace s)
  /\ token_file (snd (run_body change s)) = Some id.
Proof.
  intros Hns Hid.
  assert (Hc : collection_name change = Ok VNone).
  { unfold collection_name, get_method at 1, dict_get_default. cbn [rbind].
    destruct Hns as [Hns|[ns [Hns Hcoll]]]; rewrite Hns; simpl;
      [reflexivity|]. unfold dict_get_default. now rewrite Hcoll. }
  split; [assumption|]. split; [reflexivity|].
  rewrite (run_body_skip change VNone id s Hc eq_refl Hid). cbn [snd].
  split; [reflexivity|]. split; [apply posts_persisted|reflexivity].
Qed.

Lemma unchanged_sent (s : state) (req : request) : unchanged_position s (sent s req).
Proof.
  unfold unchanged_position, sent. cbn [token_file trace].
  rewrite writes_app. simpl. now rewrite app_nil_r.
Qed.

(** A failing [handle_change] leaves the file and the writes as they were. *)
Lemma handle_change_raise_unchanged (change : dict) (s s1 : state) (e : exn) :
  handle_change change s = (Raise e, s1) -> unchanged_position s s1.
Proof.
  rewrite handle_change_cases.
  destruct (handle_change_request change) as [[req change']|e'].
  - destruct (endpoint (trace s) req) as [resp|]; intros [= _ <-];
      apply unchanged_sent.
  - intros [= _ <-]. split; reflexivity.
Qed.

Lemma handle_change_ok (change change1 : dict) (s s1 : state) :
  handle_change change s = (Ok change1, s1) ->
  exists req resp,
    handle_change_request change = Ok (req, change1)
    /\ endpoint (trace s) req = Some resp
    /\ raise_for_status resp = Ok tt
    /\ s1 = sent s req
    /\ dict_get change1 "_id" = dict_get change "_id".
Proof.
  rewrite handle_change_cases.
  destruct (handle_change_request change) as [[req change']|e'] eqn:Hreq;
    [|discriminate].
  destruct (endpoint (trace s) req) as [resp|] eqn:Hresp; [|discriminate].
  destruct (raise_for_status resp) as [[]|e'] eqn:Hst; [|discriminate].
  simpl. intros [= <- <-]. exists req, resp. repeat (split; [reflexivity|]).
  destruct (handle_change_request_document change change' req Hreq)
    as (ns & coll & fd & i & doc & _ & _ & _ & _ & _ & _ & ->).
  now rewrite dict_get_set_other by discriminate.
Qed.

(** The outcome of the body of the loop on an event with an id: either the
    event was skipped or delivered, and its id is persisted, or it was
    neither, an exception is raised, and the position is as before. *)
Lemma run_body_outcome (change : dict) (id : value) (s : state) :
  dict_get change "_id" = Some id ->
  ((skipped change \/ delivered s change)
   /\ fst (run_body change s) = Ok tt
   /\ token_file (snd (run_body change s)) = Some id
   /\ writes (trace (snd (run_body change s))) = (writes (trace s) ++ [id])%list)
  \/ (~ (skipped change \/ delivered s change)
      /\ (exists e, fst (run_body change s) = Raise e)
      /\ unchanged_position s (snd (run_body change s))).
Proof.
  intros Hid. rewrite run_body_cases.
  destruct (collection_name change) as [coll|e] eqn:Hc.
  2:{ right. split.
      { intros [[c [H _]]|(c & req & change1 & resp & H & _)]; congruence. }
      cbn [fst snd]. split; [eauto|split; reflexivity]. }
  destruct (wanted coll) eqn:Hw.
  - destruct (handle_change change s) as [[change1|e] s1] eqn:Hh.
    + destruct (handle_change_ok change change1 s s1 Hh)
        as (req & resp & Hreq & Hresp & Hst & -> & Hid1).
      rewrite Hid1, Hid. left. split.
      { right. exists coll, req, change1, resp. auto. }
      cbn [fst snd]. split; [reflexivity|]. split; [reflexivity|].
      unfold persisted. cbn [trace]. rewrite writes_app.
      destruct (unchanged_sent s req) as [_ ->]. reflexivity.
    + right. split.
      { intros [[c [H1 H2]]|(c & req & change1 & resp & H1 & _ & Hreq & Hresp & Hst)].
        - congruence.
        - rewrite handle_change_cases, Hreq, Hresp, Hst in Hh. discriminate. }
      cbn [fst snd]. split; [eauto|].
      exact (handle_change_raise_unchanged change s s1 e Hh).
  - rewrite Hid. left. split; [left; exists coll; auto|].
    cbn [fst snd]. split; [reflexivity|]. split; [reflexivity|].
    unfold persisted. cbn [trace]. now rewrite writes_app.
Qed.


(** Without an id the body of the loop raises and persists nothing. *)
Lemma run_body_no_id (change : dict) (s : state) :
  dict_get change "_id" = None ->
  (exists e, fst (run_body change s) = Raise e)
  /\ unchanged_position s (snd (run_body change s)).
Proof.
  intros Hid. rewrite run_body_cases.
  destruct (collection_name change) as [coll|e].
  2:{ cbn [fst snd]. split; [eauto|split; reflexivity]. }
  destruct (wanted coll).
  - destruct (handle_change change s) as [[change1|e] s1] eqn:Hh.
    + destruct (handle_change_ok change change1 s s1 Hh)
        as (req & resp & _ & _ & _ & -> & Hid1).
      rewrite Hid1, Hid. cbn [fst snd]. split; [eauto|apply unchanged_sent].
    + cbn [fst snd]. split; [eauto|].
      exact (handle_change_raise_unchanged change s s1 e Hh).
  - rewrite Hid. cbn [fst snd]. split; [eauto|split; reflexivity].
Qed.

Lemma last_cons {A : Type} (a d : A) (l : list A) : last (a :: l) d = last l a.
Proof.
  revert a d. induction l as [|b l IH]; intros a d; [reflexivity|].
  change (last (a :: b :: l) d) with (last (b :: l) d).
  now rewrite !IH.
Qed.

Lemma list_neq_app_one {A : Type} (l : list A) (a : A) : l <> (l ++ [a])%list.
Proof.
  intros H. apply (f_equal (@List.length A)) in H.
  rewrite length_app in H. simpl in H. lia.
Qed.

(** Over a whole run: the tokens written are ids of events of the stream
    that were skipped or delivered, and the file holds the last of them. *)
Lemma run_position (stream : list stream_item) :
  forall s,
  exists ids,
    writes (trace (snd (run stream s))) = (writes (trace s) ++ ids)%list
    /\ token_file (snd (run stream s)) = last (map Some ids) (token_file s)
    /\ Forall (fun id =>
                 exists change s0,
                   In (Change change) stream
                   /\ dict_get change "_id" = Some id
                   /\ (skipped change \/ delivered s0 change)) ids.
Proof.
  induction stream as [|[change|] rest IH]; intros s.
  - exists []. simpl. rewrite app_nil_r. auto.
  - assert (Hstop : forall e s1,
               run_body change s = (Raise e, s1) -> unchanged_position s s1 ->
               exists ids,
                 writes (trace (snd (run (Change change :: rest) s)))
                 = (writes (trace s) ++ ids)%list
                 /\ token_file (snd (run (Change change :: rest) s))
                    = last (map Some ids) (token_file s)
                 /\ Forall (fun id =>
                              exists change0 s0,
                                In (Change change0) (Change change :: rest)
                                /\ dict_get change0 "_id" = Some id
                                /\ (skipped change0 \/ delivered s0 change0)) ids).
    { intros e s1 Hr [Hf Hw]. exists []. cbn [run]. unfold bind. rewrite Hr.
      cbn [snd map last]. rewrite app_nil_r. auto. }
    destruct (dict_get change "_id") as [id|] eqn:Hid.
    + destruct (run_body_outcome change id s Hid)
        as [(Hsd & Hok & Hfile & Hw)|(_ & [e He] & Hun)].
      * destruct (run_body change s) as [r s1] eqn:Hr. cbn [fst snd] in *.
        subst r. destruct (IH s1) as (ids & Hws & Hfs & Hall).
        exists (id :: ids). cbn [run]. unfold bind. rewrite Hr.
        split; [|split].
        -- rewrite Hws, Hw, <- app_assoc. reflexivity.
        -- rewrite Hfs, Hfile. cbn [map]. now rewrite last_cons.
        -- constructor.
           ++ exists change, s. split; [now left|auto].
           ++ eapply Forall_impl; [|exact Hall].
              intros id' (c & s0 & Hin & H1 & H2). exists c, s0.
              split; [now right|auto].
      * destruct (run_body change s) as [r s1] eqn:Hr. cbn [fst snd] in *.
        subst r. now apply (Hstop e s1).
    + destruct (run_body_no_id change s Hid) as [[e He] Hun].
      destruct (run_body change s) as [r s1] eqn:Hr. cbn [fst snd] in *.
      subst r. now apply (Hstop e s1).
  - exists []. simpl. rewrite app_nil_r. auto.
Qed.

(** [run] on a stream in two parts. *)
Lemma run_app (l1 l2 : list stream_item) (s : state) :
  run (l1 ++ l2) s
  = match run l1 s with
    | (Ok _, s1) => run l2 s1
    | (Raise e, s1) => (Raise e, s1)
    end.
Proof.
  revert s. induction l1 as [|[change|] rest IH]; intros s; simpl.
  - reflexivity.
  - unfold bind. destruct (run_body change s) as [[[]|e] s1]; [apply IH|].
    reflexivity.
  - reflexivity.
Qed.

(** The event that comes next in a run: after the events of [l1] have been
    handled, the id of [change] is written if the event is skipped or
    delivered, and the loop goes on; if it is neither, the loop ends with
    an exception and nothing more is written, whatever follows. *)
Lemma run_next_event
      (l1 l2 : list stream_item) (change : dict) (id : value) (s s1 : state) :
  run l1 s = (Ok tt, s1) ->
  dict_get change "_id" = Some id ->
  (skipped change \/ delivered s1 change ->
   exists s2,
     run (l1 ++ [Change change]) s = (Ok tt, s2)
     /\ run (l1 ++ Change change :: l2) s = run l2 s2
     /\ writes (trace s2) = (writes (trace s1) ++ [id])%list
     /\ token_file s2 = Some id)
  /\ (~ (skipped change \/ delivered s1 change) ->
      exists e s2,
        run (l1 ++ Change change :: l2) s = (Raise e, s2)
        /\ writes (trace s2) = writes (trace s1)
        /\ token_file s2 = token_file s1).
Proof.
  intros Hrun Hid. rewrite !run_app, Hrun. cbn [run]. unfold bind, ret.
  destruct (run_body_outcome change id s1 Hid)
    as [(Hsd & Hok & Hfile & Hw)|(Hn & [e He] & Hf & Hw)];
    destruct (run_body change s1) as [[[]|e'] s2]; cbn [fst snd] in *;
    try discriminate.
  - split; [|intros Hn; contradiction]. intros _. exists s2. auto.
  - split; [intros Hsd; contradiction|]. intros _. exists e', s2. auto.
Qed.

(** C1, as the code has it: the body of the loop writes the id of the
    event to the resume-token file if and only if the event was skipped,
    its collection not being wanted, or delivered in the sense of the code,
    the endpoint having answered with a status outside 400..599 (every 2xx
    status, but also one such as 304); otherwise an exception ends the loop
    and the file is as before.  In particular a failing [handle_change]
    leaves the file as it was; for a wanted event whose request was
    answered the id is persisted on a 2xx status and the file is left as it
    was on a status from 400 to 599.  Over a whole run every token written
    is the id of an event that was skipped or delivered, and, the other way
    round, after the events handled so far the id of the next event is
    written exactly when that event is skipped or delivered: if it is, the
    loop goes on, and if it is not, the loop ends and nothing more is
    written. *)
Theorem resume_position_iff_delivered_or_skipped :
  (forall (change : dict) (id : value) (s : state),
      dict_get change "_id" = Some id ->
      (skipped change \/ delivered s change
       <-> writes (trace (snd (run_body change s)))
           = (writes (trace s) ++ [id])%list)
      /\ (skipped change \/ delivered s change ->
          fst (run_body change s) = Ok tt
          /\ token_file (snd (run_body change s)) = Some id)
      /\ (~ (skipped change \/ delivered s change) ->
          (exists e, fst (run_body change s) = Raise e)
          /\ token_file (snd (run_body change s)) = token_file s))
  /\ (forall (change : dict) (s s1 : state) (e : exn),
         handle_change change s = (Raise e, s1) ->
         token_file s1 = token_file s
         /\ forall coll,
             collection_name change = Ok coll -> wanted coll = true ->
             run_body change s = (Raise e, s1))
  /\ (forall (stream : list stream_item) (s : state),
         exists ids,
           writes (trace (snd (run stream s))) = (writes (trace s) ++ ids)%list
           /\ token_file (snd (run stream s))
              = last (map Some ids) (token_file s)
           /\ Forall (fun id =>
                        exists change s0,
                          In (Change change) stream
                          /\ dict_get change "_id" = Some id
                          /\ (skipped change \/ delivered s0 change)) ids)
  /\ (forall (change change' : dict) (id coll : value) (req : request)
             (resp : response) (s : state),
         dict_get change "_id" = Some id ->
         collection_name change = Ok coll -> wanted coll = true ->
         handle_change_request change = Ok (req, change') ->
         endpoint (trace s) req = Some resp ->
         (200 <= status_code resp < 300 ->
          token_file (snd (run_body change s)) = Some id)
         /\ (400 <= status_code resp < 600 ->
             token_file (snd (run_body change s)) = token_file s))
  /\ (forall (l1 l2 : list stream_item) (change : dict) (id : value)
             (s s1 : state),
         run l1 s = (Ok tt, s1) ->
         dict_get change "_id" = Some id ->
         (skipped change \/ delivered s1 change ->
          exists s2,
            run (l1 ++ [Change change]) s = (Ok tt, s2)
            /\ run (l1 ++ Change change :: l2) s = run l2 s2
            /\ writes (trace s2) = (writes (trace s1) ++ [id])%list
            /\ token_file s2 = Some id)
         /\ (~ (skipped change \/ delivered s1 change) ->
             exists e s2,
               run (l1 ++ Change change :: l2) s = (Raise e, s2)
               /\ writes (trace s2) = writes (trace s1)
               /\ token_file s2 = token_file s1)).
Proof.
  split; [|split; [|split; [|split]]].
  5:{ exact run_next_event. }
  4:{ intros change change' id coll req resp s Hid Hc Hw Hreq Hresp.
      destruct (run_body_outcome change id s Hid)
        as [(Hsd & Hok & Hfile & _)|(Hn & _ & Hf & _)].
      - split; [auto|]. intros Herr. exfalso.
        destruct Hsd as [(c & H1 & H2)|(c & r & c' & a & _ & _ & H3 & H4 & H5)];
          [congruence|].
        rewrite Hreq in H3. injection H3 as <- <-.
        rewrite Hresp in H4. injection H4 as <-.
        apply raise_for_status_ok in H5. contradiction.
      - split; [|intros _; exact Hf]. intros H2xx. exfalso. apply Hn. right.
        exists coll, req, change', resp. repeat (split; [assumption|]).
        apply raise_for_status_ok. lia. }
  - intros change id s Hid.
    destruct (run_body_outcome change id s Hid)
      as [(Hsd & Hok & Hfile & Hw)|(Hn & He & Hf & Hw)].
    + split; [tauto|]. split; [auto|tauto].
    + split; [|split; [tauto|auto]].
      split; [tauto|]. rewrite Hw. intros H.
      now apply list_neq_app_one in H.
  - intros change s s1 e Hh.
    split; [apply (handle_change_raise_unchanged change s s1 e Hh)|].
    intros coll Hc Hw. now rewrite run_body_cases, Hc, Hw, Hh.
  - intros stream s. apply run_position.
Qed.

(** ** More on [flatten] *)

Lemma dict_get_app (l l' : dict) (k : string) :
  dict_get (l ++ l')%list k
  = match dict_get l k with Some v => Some v | None => dict_get l' k end.
Proof.
  induction l as [|[k0 v0] t IH]; simpl; [reflexivity|].
  destruct (String.eqb k0 k); [reflexivity|exact IH].
Qed.

Lemma dict_get_dict_set (d : dict) (k k' : string) (v : value) :
  dict_get (dict_set d k v) k'
  = if String.eqb k k' then Some v else dict_get d k'.
Proof.
  destruct (String.eqb k k') eqn:E.
  - apply String.eqb_eq in E. subst. apply dict_get_set_same.
  - apply String.eqb_neq in E. now apply dict_get_set_other.
Qed.

(** In [dict(items)] on top of [acc] a key holds the value of the last
    item that has it. *)
Lemma dict_get_fold_dict_set (items : list (string * value)) :
  forall acc k,
    dict_get (fold_left (fun d kv => dict_set d (fst kv) (snd kv)) items acc) k
    = match dict_get (rev items) k with
      | Some v => Some v
      | None => dict_get acc k
      end.
Proof.
  induction items as [|[k0 v0] t IH]; intros acc k; simpl; [reflexivity|].
  rewrite IH, dict_get_app, dict_get_dict_set. simpl.
  destruct (dict_get (rev t) k); [reflexivity|].
  destruct (String.eqb k0 k); reflexivity.
Qed.

Lemma flatten_items_app (d d' : dict) (parent_key separator : string) :
  flatten_items (d ++ d')%list parent_key separator
  = (flatten_items d parent_key separator
     ++ flatten_items d' parent_key separator)%list.
Proof.
  induction d as [|[k x] t IH]; simpl; [reflexivity|].
  now rewrite IH, app_assoc.
Qed.

(** X1: when several items of [flatten] come under one key, the last one
    collected wins: the result holds, under each key, the value of the last
    item with that key.  So a non-mapping entry that stands last at the top
    level is always found under its own key. *)
Theorem flatten_last_item_wins :
  (forall (d : dict) (parent_key separator k : string),
      dict_get (flatten d parent_key separator) k
      = dict_get (rev (flatten_items d parent_key separator)) k)
  /\ (forall (d : dict) (separator k : string) (v : value),
         is_mapping v = false ->
         dict_get (flatten (d ++ [(k, v)])%list "" separator) k = Some v).
Proof.
  assert (H : forall d pk sep k,
             dict_get (flatten d pk sep) k
             = dict_get (rev (flatten_items d pk sep)) k).
  { intros d pk sep k. rewrite flatten_unfold. unfold dict_of_items.
    rewrite dict_get_fold_dict_set.
    now destruct (dict_get (rev (flatten_items d pk sep)) k). }
  split; [exact H|].
  intros d sep k v Hv. rewrite H, flatten_items_app, rev_app_distr.
  destruct v; try discriminate; simpl; now rewrite String.eqb_refl.
Qed.

Lemma keys_dict_set_inv (d : dict) (k k' : string) (v : value) :
  In k' (keys (dict_set d k v)) -> In k' (keys d) \/ k' = k.
Proof.
  rewrite keys_dict_set.
  destruct (in_dec string_dec k (keys d)) as [Hin|Hn]; [now left|].
  intros H. apply in_app_or in H. destruct H as [H|[H|[]]]; auto.
Qed.

(** Every key of [dict(items)] is a key of the items. *)
Lemma keys_fold_dict_set_inv (items : list (string * value)) :
  forall acc k,
    In k (keys (fold_left (fun d kv => dict_set d (fst kv) (snd kv)) items acc)) ->
    In k (keys acc) \/ In k (keys items).
Proof.
  induction items as [|[k0 v0] t IH]; simpl; intros acc k H; [now left|].
  apply IH in H. destruct H as [H|H]; [|auto].
  apply keys_dict_set_inv in H. destruct H as [H| ->]; auto.
Qed.

Lemma string_app_nonempty (a b : string) : a <> "" -> a ++ b <> "".
Proof. destruct a; [congruence|discriminate]. Qed.

Lemma new_key_nonempty (parent_key separator key : string) :
  parent_key <> "" ->
  new_key parent_key separator key = parent_key ++ separator ++ key.
Proof.
  intros H. unfold new_key. destruct (String.eqb parent_key "") eqn:E;
    [apply String.eqb_eq in E; contradiction|reflexivity].
Qed.

(** X2: below a parent key that is not empty, every key of the result of
    [flatten] is the parent key, the separator and a rest. *)
Theorem flatten_keys_start_with_parent (d : dict) :
  forall (parent_key separator k : string),
    parent_key <> "" ->
    In k (keys (flatten d parent_key separator)) ->
    exists rest, k = parent_key ++ separator ++ rest.
Proof.
  induction d as [d IH] using dict_nested_ind. intros pk sep k Hpk Hin.
  rewrite flatten_unfold in Hin. unfold dict_of_items in Hin.
  apply keys_fold_dict_set_inv in Hin. destruct Hin as [[]|Hin].
  induction d as [|[k0 x] t IHt]; [destruct Hin|].
  simpl in Hin. unfold keys in Hin. rewrite map_app in Hin.
  apply in_app_or in Hin. destruct Hin as [Hin|Hin].
  - assert (Hs : is_mapping x = false ->
                 exists rest, k = pk ++ sep ++ rest).
    { intros Hx. exists k0.
      destruct x; try discriminate; destruct Hin as [<-|[]];
        now apply new_key_nonempty. }
    destruct x; try (now apply Hs).
    destruct (IH k0 d (or_introl eq_refl) (new_key pk sep k0) sep k)
      as [rest Hrest]; [|exact Hin|].
    + rewrite new_key_nonempty by assumption.
      now apply string_app_nonempty.
    + exists (k0 ++ sep ++ rest). rewrite Hrest.
      rewrite new_key_nonempty by assumption.
      now rewrite !string_app_assoc.
  - apply IHt; [|exact Hin].
    intros k' sub Hk'. apply (IH k' sub). now right.
Qed.

(** X3: a sub-mapping without entries leaves nothing in the result of
    [flatten]: the result is the one of the mapping without that entry. *)
Theorem flatten_drops_empty_mapping
        (d d' : dict) (k parent_key separator : string) :
  flatten (d ++ (k, VDict []) :: d')%list parent_key separator
  = flatten (d ++ d')%list parent_key separator.
Proof.
  rewrite !flatten_unfold, !flatten_items_app. reflexivity.
Qed.

Lemma app_inv_head_string (a b c : string) : a ++ b = a ++ c -> b = c.
Proof.
  induction a as [|x a IH]; simpl; [auto|]. intros [= H]. auto.
Qed.

Lemma new_key_inj (parent_key separator k k' : string) :
  new_key parent_key separator k = new_key parent_key separator k' -> k = k'.
Proof.
  unfold new_key. destruct (String.eqb parent_key ""); [auto|].
  intros H. apply app_inv_head_string in H.
  now apply app_inv_head_string in H.
Qed.

Lemma flatten_items_flat (d : dict) (parent_key separator : string) :
  flat d -> flatten_items d parent_key separator = joined parent_key separator d.
Proof.
  induction 1 as [|[k x] t Hx Ht IH]; simpl; [reflexivity|].
  rewrite IH. destruct x; try reflexivity. discriminate.
Qed.

(** X4: on a mapping without sub-mappings and with distinct keys [flatten]
    keeps every entry, in order, under its joined key; without a parent key
    the result is the mapping itself. *)
Theorem flatten_of_flat (d : dict) (parent_key separator : string) :
  flat d -> NoDup (keys d) ->
  flatten d parent_key separator = joined parent_key separator d
  /\ flatten d "" separator = d.
Proof.
  intros Hf Hn.
  assert (H : forall pk, flatten d pk separator = joined pk separator d).
  { intros pk. rewrite flatten_unfold, flatten_items_flat by assumption.
    apply dict_of_items_NoDup. unfold joined, keys. rewrite map_map. simpl.
    clear Hf. induction d as [|[k x] t IH]; simpl; [constructor|].
    inversion Hn as [|? ? Hk Ht]; subst. constructor; [|now apply IH].
    intros Hin. apply Hk. apply in_map_iff in Hin.
    destruct Hin as [[k' x'] [Heq Hin]]. simpl in Heq.
    apply new_key_inj in Heq. subst.
    change k with (fst (k, x')). now apply in_map. }
  split; [apply H|]. rewrite H. unfold joined.
  rewrite <- (map_id d) at 2. apply map_ext. now intros [k x].
Qed.

(** ** The encoder *)

(** Induction on a value through its lists and mappings. *)
Lemma value_nested_ind (P : value -> Prop) :
  P VNone -> (forall b, P (VBool b)) -> (forall z, P (VInt z)) ->
  (forall f, P (VFloat f)) -> (forall s, P (VStr s)) ->
  (forall d, P (VDatetime d)) -> (forall hex, P (VObjectId hex)) ->
  (forall l, Forall P l -> P (VList l)) ->
  (forall d, Forall (fun kv => P (snd kv)) d -> P (VDict d)) ->
  forall v, P v.
Proof.
  intros HN HB HI HF HS HD HO HL HM.
  fix IH 1.
  intros [ | b | z | f | s | d | hex | l | d];
    [exact HN|apply HB|apply HI|apply HF|apply HS|apply HD|apply HO| | ].
  - apply HL. induction l as [|x t IHt]; constructor; [apply IH|exact IHt].
  - apply HM. induction d as [|[k x] t IHt]; constructor; [apply IH|exact IHt].
Qed.

(** X5: [dumps] with [MagicEncoder] raises [TypeError] on every value in
    which an [ObjectId] occurs, however deep in lists and mappings, and it
    encodes every value made of [None], booleans, integers, floats,
    strings, datetimes, and lists and mappings of such values only. *)
Theorem dumps_rejects_object_ids_and_encodes_plain_values (o : value) :
  (serializable o = true -> exists j, dumps o = Ok j)
  /\ (serializable o = false -> dumps o = Raise TypeError).
Proof.
  assert (H : dumps_outcome o).
  { induction o as [ | b | z | f | s | d | hex | l IH | d IH]
      using value_nested_ind; unfold dumps_outcome; simpl; eauto.
    - assert (Hl : if forallb serializable l
                   then exists js,
                       (fix elements (l : list value) : result (list json) :=
                          match l with
                          | [] => Ok []
                          | x :: t =>
                              rbind (dumps x) (fun j =>
                              rbind (elements t) (fun js => Ok (j :: js)))
                          end) l = Ok js
                   else (fix elements (l : list value) : result (list json) :=
                           match l with
                           | [] => Ok []
                           | x :: t =>
                               rbind (dumps x) (fun j =>
                               rbind (elements t) (fun js => Ok (j :: js)))
                           end) l = Raise TypeError).
      { induction IH as [|x t Hx Ht IHt]; simpl; [eauto|].
        unfold dumps_outcome in Hx. destruct (serializable x); simpl.
        - destruct Hx as [j ->]. simpl.
          destruct (forallb serializable t).
          + destruct IHt as [js ->]. simpl. eauto.
          + rewrite IHt. reflexivity.
        - rewrite Hx. reflexivity. }
      destruct (forallb serializable l).
      + destruct Hl as [js ->]. simpl. eauto.
      + rewrite Hl. reflexivity.
    - assert (Hl : if forallb (fun kv => serializable (snd kv)) d
                   then exists js,
                       (fix members (l : list (string * value))
                          : result (list (string * json)) :=
                          match l with
                          | [] => Ok []
                          | (k, x) :: t =>
                              rbind (dumps x) (fun j =>
                              rbind (members t) (fun js => Ok ((k, j) :: js)))
                          end) d = Ok js
                   else (fix members (l : list (string * value))
                           : result (list (string * json)) :=
                           match l with
                           | [] => Ok []
                           | (k, x) :: t =>
                               rbind (dumps x) (fun j =>
                               rbind (members t) (fun js => Ok ((k, j) :: js)))
                           end) d = Raise TypeError).
      { induction IH as [|[k x] t Hx Ht IHt]; simpl; [eauto|].
        simpl in Hx. unfold dumps_outcome in Hx.
        destruct (serializable x); simpl.
        - destruct Hx as [j ->]. simpl.
          destruct (forallb (fun kv => serializable (snd kv)) t).
          + destruct IHt as [js ->]. simpl. eauto.
          + rewrite IHt. reflexivity.
        - rewrite Hx. reflexivity. }
      destruct (forallb (fun kv => serializable (snd kv)) d).
      + destruct Hl as [js ->]. simpl. eauto.
      + rewrite Hl. reflexivity. }
  unfold dumps_outcome in H. split; intros Hs; rewrite Hs in H; exact H.
Qed.

(** The members [dumps] writes for a mapping: one for each entry, in the
    order of the entries and under their keys. *)
Lemma dumps_dict_keys (d : dict) (j : json) :
  dumps (VDict d) = Ok j ->
  exists members, j = JObj members /\ map fst members = keys d.
Proof.
  simpl. intros H. rbind_inv H. injection H as <-. exists x. split; [reflexivity|].
  revert x Hx. induction d as [|[k v] t IH]; intros ms Hms.
  - injection Hms as <-. reflexivity.
  - rbind_inv Hms. rbind_inv Hms. injection Hms as <-. simpl.
    f_equal. now apply IH.
Qed.

(** X6: the line of a request has one member for each key of the flattened
    document, in the same order, and the stream has one for each label. *)
Theorem request_line_has_the_flattened_keys
        (change change' : dict) (req : request) :
  handle_change_request change = Ok (req, change') ->
  exists document labels line stream,
    dict_get change' "fullDocument" = Some (VDict document)
    /\ _labels_for_change document = Ok labels
    /\ req_line req = JObj line
    /\ map fst line = keys (flatten document "" "_")
    /\ req_stream req = JObj stream
    /\ map fst stream = keys labels.
Proof.
  intros H.
  destruct (handle_change_request_parts change change' req H)
    as (document & labels & Hd & Hl & Hs & Hf & _).
  destruct (dumps_dict_keys _ _ Hf) as (line & Hline & Hkl).
  destruct (dumps_dict_keys _ _ Hs) as (stream & Hstream & Hks).
  exists document, labels, line, stream. auto 10.
Qed.

(** ** More on the Label Deriver *)

(** What [_labels_for_change] can return. *)
Lemma labels_shape (change labels : dict) :
  _labels_for_change change = Ok labels ->
  exists collection,
    dict_get change "collection" = Some collection
    /\ ((wanted collection = false /\ labels = fixed_labels collection)
        \/ (wanted collection = true
            /\ exists row_key,
                labels = (fixed_labels collection ++ [("row_key", row_key)])%list)).
Proof.
  unfold _labels_for_change, getitem.
  destruct (dict_get change "collection") as [collection|]; [|discriminate].
  simpl rbind. intros H. exists collection. split; [reflexivity|].
  unfold wanted. simpl existsb.
  destruct (eq_str collection "admin_activity_log");
    [right; split; [reflexivity|]; injection H as <-; eexists; reflexivity|].
  destruct (eq_str collection "alarm");
    [right; split; [reflexivity|]; injection H as <-; eexists; reflexivity|].
  destruct (eq_str collection "alert");
    [right; split; [reflexivity|]; injection H as <-; eexists; reflexivity|].
  destruct (eq_str collection "event");
    [right; split; [reflexivity|]; injection H as <-; eexists; reflexivity|].
  destruct (eq_str collection "inspection_log");
    [right; split; [reflexivity|]; do 2 rbind_inv H; injection H as <-;
     eexists; reflexivity|].
  destruct (eq_str collection "threat_log_view");
    [right; split; [reflexivity|]; injection H as <-; eexists; reflexivity|].
  destruct (eq_str collection "trigger_log");
    [right; split; [reflexivity|]; injection H as <-; eexists; reflexivity|].
  left. split; [reflexivity|]. now injection H as <-.
Qed.

(** X7: the Label Deriver needs the field [collection] and raises
    [KeyError] without it; when it returns, the labels are [source], [job],
    [host] and [collection], in this order, followed by [row_key] exactly
    when the collection is one of [WANTED_COLLECTIONS]: the list and the
    branches of the chain agree. *)
Theorem labels_agree_with_wanted_collections (change : dict) :
  (dict_get change "collection" = None ->
   _labels_for_change change = Raise (KeyError "collection"))
  /\ (forall labels,
         _labels_for_change change = Ok labels ->
         exists collection,
           dict_get change "collection" = Some collection
           /\ dict_get labels "source" = Some (VStr "unifi-mongodb-watcher")
           /\ dict_get labels "job" = Some (VStr "unifi-mongodb-watcher")
           /\ dict_get labels "host" = Some (VStr host)
           /\ dict_get labels "collection" = Some collection
           /\ (wanted collection = true <-> In "row_key" (keys labels))
           /\ (keys labels = ["source"; "job"; "host"; "collection"]
               \/ keys labels
                  = ["source"; "job"; "host"; "collection"; "row_key"])).
Proof.
  split.
  - intros H. unfold _labels_for_change, getitem. now rewrite H.
  - intros labels H. destruct (labels_shape change labels H)
      as (collection & Hc & [[Hw ->]|[Hw [row_key ->]]]);
      exists collection; rewrite Hw; (split; [exact Hc|]); simpl;
      do 4 (split; [reflexivity|]); (split; [|auto]).
    + split; [discriminate|]. intros [H1|[H1|[H1|[H1|[]]]]]; discriminate.
    + split; auto 10.
Qed.

(** ** More on [handle_change] *)

Lemma normalize_time_other_keys (change change' : dict) (k : string) :
  normalize_time change = Ok change' -> k <> "time" ->
  dict_get change' k = dict_get change k.
Proof.
  unfold normalize_time. intros H Hk. rbind_inv H.
  destruct (10 <? String.length (py_str x))%nat.
  - rbind_inv H. injection H as <-. rewrite dict_get_set_other; auto.
  - now injection H as <-.
Qed.

(** A [time] of a type without [/] and [int()] gets no timestamp. *)
Lemma timeless_type_raises (change : dict) (time : value) :
  dict_get change "time" = Some time -> timeless_type time = true ->
  rbind (normalize_time change) timestamp = Raise TypeError.
Proof.
  intros Ht Hty. unfold normalize_time, timestamp. cbn [getitem].
  rewrite Ht. cbn [rbind].
  destruct (10 <? String.length (py_str time))%nat.
  - destruct time; try discriminate; reflexivity.
  - cbn [rbind getitem]. rewrite Ht.
    destruct time; try discriminate; reflexivity.
Qed.

(** X8: a document whose [time] is [None], a datetime, an [ObjectId], a
    list or a mapping is not encoded: whatever the length of its [str],
    [handle_change] raises [TypeError], and nothing is sent or written. *)
Theorem time_of_other_type_is_rejected
        (change fullDocument : dict) (ns coll _id time : value) :
  dict_get change "ns" = Some ns ->
  getitem ns "coll" = Ok coll ->
  dict_get change "fullDocument" = Some (VDict fullDocument) ->
  dict_get fullDocument "_id" = Some _id ->
  dict_get fullDocument "time" = Some time ->
  timeless_type time = true ->
  handle_change_request change = Raise TypeError
  /\ forall s, handle_change change s = (Raise TypeError, s).
Proof.
  intros Hns Hcoll Hfd Hid Ht Hty.
  assert (Hreq : handle_change_request change = Raise TypeError).
  { unfold handle_change_request. cbn [getitem]. rewrite Hns. cbn [rbind].
    rewrite Hcoll. cbn [rbind]. rewrite Hfd. cbn [rbind setitem].
    rewrite dict_get_set_other by discriminate. rewrite Hid. cbn [rbind].
    pose proof (timeless_type_raises
                  (dict_set (dict_set fullDocument "collection" coll) "_id"
                            (VStr (py_str _id))) time) as H.
    rewrite !dict_get_set_other in H by discriminate.
    specialize (H Ht Hty).
    destruct (normalize_time
                (dict_set (dict_set fullDocument "collection" coll) "_id"
                          (VStr (py_str _id)))) as [change3|e];
      cbn [rbind] in *; [|now injection H as ->].
    now rewrite H. }
  split; [exact Hreq|]. intros s. now rewrite handle_change_cases, Hreq.
Qed.

(** X9: the request of [handle_change] goes to
    [http://{loki_host}:3100/loki/api/v1/push] as [application/json], and
    its stream starts with the labels [source], [job], [host] and
    [collection], the last being the [coll] of the event's [ns]; at most
    the label [row_key] follows. *)
Theorem request_shape (change change' : dict) (req : request) :
  handle_change_request change = Ok (req, change') ->
  req_url req = "http://" ++ loki_host ++ ":3100/loki/api/v1/push"
  /\ req_content_type req = "application/json"
  /\ exists ns coll jcoll rest,
      dict_get change "ns" = Some ns
      /\ getitem ns "coll" = Ok coll
      /\ dumps coll = Ok jcoll
      /\ req_stream req
         = JObj ([ ("source", JStr "unifi-mongodb-watcher");
                   ("job", JStr "unifi-mongodb-watcher");
                   ("host", JStr host);
                   ("collection", jcoll) ] ++ rest)%list
      /\ (rest = [] \/ exists row_key, rest = [("row_key", row_key)]).
Proof.
  intros H.
  destruct (handle_change_request_document change change' req H)
    as (ns & coll & fd & i & doc & Hns & Hcoll & Hfd & Hid & Hn & Hts & Hc').
  destruct (handle_change_request_parts change change' req H)
    as (doc' & labels & Hd & Hl & Hs & _).
  rewrite Hc', dict_get_set_same in Hd. injection Hd as <-.
  split; [|split].
  - unfold handle_change_request in H. do 10 rbind_inv H.
    now injection H as <- _.
  - unfold handle_change_request in H. do 10 rbind_inv H.
    now injection H as <- _.
  - exists ns, coll.
    destruct (labels_shape doc labels Hl) as (c & Hc & Hshape).
    rewrite (normalize_time_other_keys _ _ "collection" Hn) in Hc
      by discriminate.
    rewrite dict_get_set_other, dict_get_set_same in Hc by discriminate.
    injection Hc as <-.
    destruct Hshape as [[_ ->]|[_ [row_key ->]]]; simpl in Hs;
      destruct (dumps coll) as [jcoll|e]; try discriminate; simpl in Hs.
    + injection Hs as <-. exists jcoll, []. auto 10.
    + destruct (dumps row_key) as [jrow|e]; [|discriminate].
      simpl in Hs. injection Hs as <-.
      exists jcoll, [("row_key", jrow)]. eauto 10.
Qed.

(** X10: [handle_change] changes three fields of the document and nothing
    else of the event: [collection] becomes the [coll] of [ns], also when
    the document had a field of that name, [_id] becomes its string, [time]
    may be divided, every other field of the document and every other entry
    of the event, its [_id] included, is as before. *)
Theorem handle_change_rewrites_three_fields
        (change change' : dict) (req : request) :
  handle_change_request change = Ok (req, change') ->
  exists ns coll fullDocument _id document,
    dict_get change "ns" = Some ns
    /\ getitem ns "coll" = Ok coll
    /\ dict_get change "fullDocument" = Some (VDict fullDocument)
    /\ dict_get fullDocument "_id" = Some _id
    /\ dict_get change' "fullDocument" = Some (VDict document)
    /\ dict_get document "collection" = Some coll
    /\ dict_get document "_id" = Some (VStr (py_str _id))
    /\ (forall k, k <> "collection" -> k <> "_id" -> k <> "time" ->
                  dict_get document k = dict_get fullDocument k)
    /\ (forall k, k <> "fullDocument" ->
                  dict_get change' k = dict_get change k).
Proof.
  intros H.
  destruct (handle_change_request_document change change' req H)
    as (ns & coll & fd & i & doc & Hns & Hcoll & Hfd & Hid & Hn & Hts & ->).
  exists ns, coll, fd, i, doc. do 4 (split; [assumption|]).
  split; [apply dict_get_set_same|]. split; [|split; [|split]].
  - rewrite (normalize_time_other_keys _ _ "collection" Hn) by discriminate.
    rewrite dict_get_set_other by discriminate. apply dict_get_set_same.
  - rewrite (normalize_time_other_keys _ _ "_id" Hn) by discriminate.
    apply dict_get_set_same.
  - intros k H1 H2 H3.
    rewrite (normalize_time_other_keys _ _ k Hn) by assumption.
    rewrite !dict_get_set_other; auto.
  - intros k Hk. rewrite dict_get_set_other; auto.
Qed.

(** [handle_change] leaves the token, in memory and in the file, alone, and
    sends one request at most. *)
Lemma handle_change_frame (change : dict) (s : state) :
  resume_token (snd (handle_change change s)) = resume_token s
  /\ token_file (snd (handle_change change s)) = token_file s
  /\ writes (trace (snd (handle_change change s))) = writes (trace s)
  /\ (posts (trace (snd (handle_change change s))) = posts (trace s)
      \/ exists req,
          posts (trace (snd (handle_change change s)))
          = (posts (trace s) ++ [req])%list).
Proof.
  rewrite handle_change_cases.
  destruct (handle_change_request change) as [[req change']|e]; [|auto].
  assert (H : resume_token (sent s req) = resume_token s
              /\ token_file (sent s req) = token_file s
              /\ writes (trace (sent s req)) = writes (trace s)
              /\ (posts (trace (sent s req)) = posts (trace s)
                  \/ exists r,
                      posts (trace (sent s req)) = (posts (trace s) ++ [r])%list)).
  { destruct (unchanged_sent s req) as [H1 H2].
    repeat (split; [assumption || reflexivity|]). right. exists req.
    unfold sent. cbn [trace]. now rewrite posts_app. }
  destruct (endpoint (trace s) req); exact H.
Qed.

(** X11: a request that fails in transport ends [handle_change] and the
    loop with [ConnectionError]: the request has gone out once, nothing is
    sent again, and the resume token is neither stored nor written. *)
Theorem transport_failure_is_fatal
        (change change' : dict) (coll : value) (req : request) (s : state) :
  collection_name change = Ok coll ->
  wanted coll = true ->
  handle_change_request change = Ok (req, change') ->
  endpoint (trace s) req = None ->
  handle_change change s = (Raise ConnectionError, sent s req)
  /\ run_body change s = (Raise ConnectionError, sent s req)
  /\ trace (sent s req) = (trace s ++ [Posted req None])%list
  /\ resume_token (sent s req) = resume_token s
  /\ token_file (sent s req) = token_file s.
Proof.
  intros Hc Hw Hreq Hnone.
  assert (Hh : handle_change change s = (Raise ConnectionError, sent s req)).
  { now rewrite handle_change_cases, Hreq, Hnone. }
  split; [exact Hh|]. split; [now rewrite run_body_cases, Hc, Hw, Hh|].
  unfold sent. cbn [trace resume_token token_file]. now rewrite Hnone.
Qed.

(** X12: whatever the event and however it ends, [handle_change] calls
    [requests.post] at most once (the code has no retry), and it neither
    stores nor writes a resume token. *)
Theorem handle_change_calls_post_at_most_once (change : dict) (s : state) :
  resume_token (snd (handle_change change s)) = resume_token s
  /\ token_file (snd (handle_change change s)) = token_file s
  /\ writes (trace (snd (handle_change change s))) = writes (trace s)
  /\ (posts (trace (snd (handle_change change s))) = posts (trace s)
      \/ exists req,
          posts (trace (snd (handle_change change s)))
          = (posts (trace s) ++ [req])%list).
Proof. exact (handle_change_frame change s). Qed.

(** X13: for a delivered event the request goes out first and the token is
    written after the answer: the trace grows by the request with its
    answer and then the write of the event's id, and the token in memory
    and the one in the file are that id. *)
Theorem delivered_event_posted_then_persisted
        (change change' : dict) (coll id : value) (req : request)
        (resp : response) (s : state) :
  collection_name change = Ok coll ->
  wanted coll = true ->
  handle_change_request change = Ok (req, change') ->
  endpoint (trace s) req = Some resp ->
  ~ (400 <= status_code resp < 600) ->
  dict_get change "_id" = Some id ->
  run_body change s
  = (Ok tt,
     mk_state (Some id) (Some id)
              (trace s ++ [Posted req (Some resp); WroteToken id])).
Proof.
  intros Hc Hw Hreq Hresp Hst Hid.
  apply raise_for_status_ok in Hst.
  assert (Hh : handle_change change s = (Ok change', sent s req)).
  { now rewrite handle_change_cases, Hreq, Hresp, Hst. }
  destruct (handle_change_ok change change' s (sent s req) Hh)
    as (_ & _ & _ & _ & _ & _ & Hid').
  rewrite run_body_cases, Hc, Hw, Hh, Hid', Hid.
  unfold persisted, sent. cbn [trace]. rewrite Hresp, <- app_assoc.
  reflexivity.
Qed.

(** X14: the loop handles the events in order and an exception ends it:
    running a stream in two parts is running the first and, if that ends
    without an exception, the second from the state reached; after an
    exception no later entry is touched; and when the stream fails the
    state is the one the events before the failure have left. *)
Theorem run_stops_at_first_failure :
  (forall (l1 l2 : list stream_item) (s : state),
      run (l1 ++ l2) s
      = match run l1 s with
        | (Ok _, s1) => run l2 s1
        | (Raise e, s1) => (Raise e, s1)
        end)
  /\ (forall (l1 l2 : list stream_item) (s s1 : state) (e : exn),
         run l1 s = (Raise e, s1) -> run (l1 ++ l2) s = (Raise e, s1))
  /\ (forall (l1 rest : list stream_item) (s s1 : state),
         run l1 s = (Ok tt, s1) ->
         run (l1 ++ StreamFailure :: rest) s = (Raise PyMongoError, s1)).
Proof.
  split; [exact run_app|]. split.
  - intros l1 l2 s s1 e H. now rewrite run_app, H.
  - intros l1 rest s s1 H. now rewrite run_app, H.
Qed.

(** The body of the loop keeps the token in memory and the one in the file
    equal, and makes them equal when it ends without an exception. *)
Lemma run_body_in_sync (change : dict) (s : state) :
  (fst (run_body change s) = Ok tt ->
   resume_token (snd (run_body change s)) = token_file (snd (run_body change s)))
  /\ (resume_token s = token_file s ->
      resume_token (snd (run_body change s))
      = token_file (snd (run_body change s))).
Proof.
  rewrite run_body_cases.
  destruct (collection_name change) as [coll|e]; [|split; auto; discriminate].
  destruct (wanted coll).
  - destruct (handle_change_frame change s) as (H1 & H2 & _).
    destruct (handle_change change s) as [[change1|e] s1]; cbn [snd] in *.
    + destruct (dict_get change1 "_id"); cbn [fst snd];
        [split; reflexivity|]. split; [discriminate|]. congruence.
    + split; [discriminate|]. cbn [snd]. congruence.
  - destruct (dict_get change "_id"); cbn [fst snd];
      [split; reflexivity|split; [discriminate|auto]].
Qed.

(** X15: the token in memory and the token in the file stay equal: if
    [self.resume_token] is what the file holds when the loop starts, as
    [__init__] leaves it, it is so when the loop ends, with or without an
    exception. *)
Theorem run_keeps_token_and_file_equal (stream : list stream_item) :
  forall s,
    resume_token s = token_file s ->
    resume_token (snd (run stream s)) = token_file (snd (run stream s)).
Proof.
  induction stream as [|[change|] rest IH]; intros s Hs; simpl; auto.
  unfold bind. destruct (run_body_in_sync change s) as [_ H].
  specialize (H Hs).
  destruct (run_body change s) as [[[]|e] s1]; cbn [snd] in *; auto.
Qed.

(** One event: one write exactly when the body ends without an exception,
    and one request at most. *)
Lemma run_body_counts (change : dict) (s : state) :
  (List.length (writes (trace (snd (run_body change s))))
   = List.length (writes (trace s))
     + match fst (run_body change s) with Ok _ => 1 | Raise _ => 0 end)%nat
  /\ (List.length (posts (trace (snd (run_body change s))))
      <= List.length (posts (trace s)) + 1)%nat.
Proof.
  rewrite run_body_cases.
  destruct (collection_name change) as [coll|e]; [|cbn [fst snd]; lia].
  assert (Hp : forall s0 id,
             List.length (writes (trace (persisted s0 id)))
             = (List.length (writes (trace s0)) + 1)%nat
             /\ List.length (posts (trace (persisted s0 id)))
                = List.length (posts (trace s0))).
  { intros s0 id. unfold persisted. cbn [trace].
    rewrite writes_app, posts_app, !length_app. simpl. lia. }
  destruct (wanted coll).
  - destruct (handle_change_frame change s) as (_ & _ & Hw & Hposts).
    assert (Hle : (List.length (posts (trace (snd (handle_change change s))))
                   <= List.length (posts (trace s)) + 1)%nat).
    { destruct Hposts as [->|[req ->]]; [lia|].
      rewrite length_app. simpl. lia. }
    destruct (handle_change change s) as [[change1|e] s1]; cbn [snd] in *.
    + destruct (dict_get change1 "_id") as [id|]; cbn [fst snd].
      * destruct (Hp s1 id) as [-> ->]. rewrite Hw. lia.
      * rewrite Hw. lia.
    + cbn [fst snd]. rewrite Hw. lia.
  - destruct (dict_get change "_id") as [id|]; cbn [fst snd]; [|lia].
    destruct (Hp s id) as [-> ->]. lia.
Qed.

(** X16: over a run, the calls of [requests.post] are at most the tokens
    written when the loop ends without an exception, and at most one more
    when an exception ends it: at any stop at most one call has been made
    for an event whose id is not recorded in the resume-token file. *)
Theorem at_most_one_unconfirmed_post_call (stream : list stream_item) :
  forall s,
    (List.length (posts (trace (snd (run stream s))))
     + List.length (writes (trace s))
     <= List.length (posts (trace s))
        + List.length (writes (trace (snd (run stream s))))
        + unconfirmed_allowance (fst (run stream s)))%nat.
Proof.
  induction stream as [|[change|] rest IH]; intros s; simpl;
    [lia| |lia].
  unfold bind. destruct (run_body_counts change s) as [Hw Hp].
  destruct (run_body change s) as [[[]|e] s1]; cbn [fst snd] in *.
  - specialize (IH s1). lia.
  - unfold unconfirmed_allowance. lia.
Qed.

(** ** Start-up *)

(** X17: [__init__] raises [RuntimeError] exactly when [MONGODB_CONN_STR]
    or [LOKI_HOST] is not set, naming [MONGODB_CONN_STR] when both are
    missing; otherwise the object holds the two values, the resume token
    the file holds (none without a file), and as host [LOG_HOST] when it
    is set and the host name of the machine when it is not. *)
Theorem init_requires_connection_and_host
        (env : environ) (file : option value) (hostname : string) :
  ((exists message, __init__ env file hostname = RuntimeError message)
   <-> environ_get env "MONGODB_CONN_STR" = None
       \/ environ_get env "LOKI_HOST" = None)
  /\ (environ_get env "MONGODB_CONN_STR" = None ->
      __init__ env file hostname
      = RuntimeError "ERROR: Must set the MONGODB_CONN_STR environment variable.")
  /\ (forall mongo loki,
         environ_get env "MONGODB_CONN_STR" = Some mongo ->
         environ_get env "LOKI_HOST" = Some loki ->
         exists self,
           __init__ env file hostname = Started self
           /\ self_mongo_conn_str self = mongo
           /\ self_loki_host self = loki
           /\ self_resume_token self = file
           /\ (forall log_host, environ_get env "LOG_HOST" = Some log_host ->
                                self_host self = log_host)
           /\ (environ_get env "LOG_HOST" = None -> self_host self = hostname)).
Proof.
  unfold __init__.
  destruct (environ_get env "MONGODB_CONN_STR") as [mongo|];
    destruct (environ_get env "LOKI_HOST") as [loki|];
    (split; [split; [intros [m H]; try discriminate; auto
                    |intros [H|H]; try discriminate; eauto]|]);
    (split; [intros; try discriminate; reflexivity|]);
    intros m l [= <-] [= <-].
  eexists. split; [reflexivity|]. cbn.
  repeat (split; [reflexivity|]).
  destruct (environ_get env "LOG_HOST"); split; intros; congruence.
Qed.

(** X18: a run that ends without an exception has handled every entry of
    the stream: each is an event with an id, the ids have been written to
    the file one after the other in the order of the stream, and the file
    holds the last of them. *)
Theorem completed_run_writes_every_id (stream : list stream_item) :
  forall s s1,
    run stream s = (Ok tt, s1) ->
    exists ids,
      writes (trace s1) = (writes (trace s) ++ ids)%list
      /\ Forall2 (fun item id =>
                    exists change,
                      item = Change change /\ dict_get change "_id" = Some id)
                 stream ids
      /\ token_file s1 = last (map Some ids) (token_file s).
Proof.
  induction stream as [|[change|] rest IH]; intros s s1 H; simpl in H.
  - injection H as <-. exists []. rewrite app_nil_r. repeat constructor.
  - unfold bind in H.
    destruct (dict_get change "_id") as [id|] eqn:Hid.
    + destruct (run_body_outcome change id s Hid)
        as [(_ & Hok & Hfile & Hw)|(_ & [e He] & _)];
        destruct (run_body change s) as [[[]|e'] s0]; cbn [fst snd] in *;
        try discriminate.
      destruct (IH s0 s1 H) as (ids & Hws & Hall & Hf).
      exists (id :: ids). split; [|split].
      * rewrite Hws, Hw, <- app_assoc. reflexivity.
      * constructor; [eauto|exact Hall].
      * rewrite Hf, Hfile. cbn [map]. now rewrite last_cons.
    + destruct (run_body_no_id change s Hid) as [[e He] _].
      destruct (run_body change s) as [[[]|e'] s0]; cbn [fst] in *;
        discriminate.
  - discriminate.
Qed.

(** X19: a wanted event without [fullDocument] raises [KeyError], and one
    whose [fullDocument] is not a mapping raises [TypeError]; in both cases
    nothing is sent and the state is left as it was. *)
Theorem event_without_document_fails
        (change : dict) (ns coll : value) :
  dict_get change "ns" = Some ns ->
  getitem ns "coll" = Ok coll ->
  (dict_get change "fullDocument" = None ->
   forall s, handle_change change s = (Raise (KeyError "fullDocument"), s))
  /\ (forall fullDocument,
         dict_get change "fullDocument" = Some fullDocument ->
         is_mapping fullDocument = false ->
         forall s, handle_change change s = (Raise TypeError, s)).
Proof.
  intros Hns Hcoll. split.
  - intros Hfd s. rewrite handle_change_cases. unfold handle_change_request.
    cbn [getitem]. rewrite Hns. cbn [rbind]. rewrite Hcoll. cbn [rbind].
    now rewrite Hfd.
  - intros fd Hfd Hm s. rewrite handle_change_cases.
    unfold handle_change_request.
    cbn [getitem]. rewrite Hns. cbn [rbind]. rewrite Hcoll. cbn [rbind].
    rewrite Hfd. cbn [rbind]. destruct fd; try reflexivity. discriminate.
Qed.

End Program.

(** * The properties at the examples *)

(** An alert answered with 204 is delivered, and its id is persisted. *)
Lemma resume_position_witness :
  dict_get alert_event "_id" = Some (token "8265")
  /\ fst (run_body example_repr example_int_of_str (answering 204 "")
                   "loki" "gateway" alert_event cold_start) = Ok tt
  /\ token_file (snd (run_body example_repr example_int_of_str
                               (answering 204 "") "loki" "gateway"
                               alert_event cold_start))
     = Some (token "8265").
Proof.
  split; [reflexivity|].
  destruct (proj1 (resume_position_iff_delivered_or_skipped
                     example_repr example_int_of_str (answering 204 "")
                     "loki" "gateway")
                  alert_event (token "8265") cold_start eq_refl)
    as [_ [H _]].
  apply H. right. exists (VStr "alert").
  eexists. eexists. eexists.
  split; [reflexivity|]. split; [reflexivity|]. split; [reflexivity|].
  split; reflexivity.
Defined.

(** C1 does not hold as stated: the alert is not skipped, the answer 304 is
    not an HTTP success, and the id of the event is persisted all the
    same. *)
Lemma resume_position_status_304_counterexample :
  ~ (200 <= status_code (mk_response 304 "") < 300)
  /\ ~ skipped alert_event
  /\ (exists req,
         trace (snd (run_body example_repr example_int_of_str
                              (answering 304 "") "loki" "gateway"
                              alert_event cold_start))
         = [Posted req (Some (mk_response 304 ""));
            WroteToken (token "8265")])
  /\ token_file (snd (run_body example_repr example_int_of_str
                               (answering 304 "") "loki" "gateway"
                               alert_event cold_start))
     = Some (token "8265").
Proof.
  split; [simpl; lia|]. split.
  - intros [coll [Hc Hw]]. injection Hc as <-. discriminate.
  - split; [eexists|]; reflexivity.
Qed.

(** An alert answered with 500 is not delivered. *)
Lemma delivery_witness :
  exists req change',
    handle_change_request example_repr example_int_of_str "loki" "gateway"
                          alert_event = Ok (req, change')
    /\ answering 500 "boom" (trace cold_start) req
       = Some (mk_response 500 "boom")
    /\ fst (handle_change example_repr example_int_of_str
                          (answering 500 "boom") "loki" "gateway"
                          alert_event cold_start)
       = Raise (HTTPError 500 "boom").
Proof.
  eexists. eexists. split; [reflexivity|]. split; [reflexivity|].
  refine (proj1 (proj2 (delivery_succeeds_unless_4xx_5xx
                          example_repr example_int_of_str
                          (answering 500 "boom") "loki" "gateway"
                          alert_event _ _ (mk_response 500 "boom") cold_start
                          eq_refl eq_refl)) _).
  simpl. lia.
Defined.

(** C2 does not hold as stated: the status 304 is not a 2xx status, and the
    attempt succeeds on it. *)
Lemma delivery_status_304_counterexample :
  ~ (200 <= status_code (mk_response 304 "") < 300)
  /\ (exists req,
         trace (snd (handle_change example_repr example_int_of_str
                                   (answering 304 "") "loki" "gateway"
                                   alert_event cold_start))
         = [Posted req (Some (mk_response 304 ""))])
  /\ (exists change',
         fst (handle_change example_repr example_int_of_str
                            (answering 304 "") "loki" "gateway"
                            alert_event cold_start) = Ok change').
Proof.
  split; [simpl; lia|]. split; eexists; reflexivity.
Qed.

(** The row key of the specification's example, [fw/block]. *)
Lemma row_key_witness :
  dict_get inspection_document "collection" = Some (VStr "inspection_log")
  /\ In "inspection_log" WANTED_COLLECTIONS
  /\ exists labels,
      _labels_for_change "gateway" inspection_document = Ok labels
      /\ dict_get labels "row_key" = Some (VStr "fw/block").
Proof.
  assert (Hw : In "inspection_log" WANTED_COLLECTIONS) by (simpl; tauto).
  split; [reflexivity|]. split; [exact Hw|].
  exact (proj2 (proj2 (row_key_matches_table
                         "gateway" inspection_document "inspection_log"
                         eq_refl Hw)) eq_refl).
Defined.

(** The timestamp of the alert whose [time] is in milliseconds. *)
Lemma timestamp_witness :
  exists req change',
    handle_change_request example_repr example_int_of_str "loki" "gateway"
                          alert_event = Ok (req, change')
    /\ req_ts req = "1700000000000000000"
    /\ exists fullDocument time,
        dict_get alert_event "fullDocument" = Some (VDict fullDocument)
        /\ dict_get fullDocument "time" = Some time
        /\ spec_timestamp example_repr example_int_of_str time
           = Ok (req_ts req).
Proof.
  eexists. eexists. split; [reflexivity|]. split; [reflexivity|].
  exact (proj1 (proj2 (timestamp_normalization
                         example_repr example_int_of_str "loki" "gateway"))
               alert_event _ _ eq_refl).
Defined.

(** An event of the collection [site] is skipped and persisted. *)
Lemma unwanted_event_witness :
  collection_name site_event = Ok (VStr "site")
  /\ wanted (VStr "site") = false
  /\ dict_get site_event "_id" = Some (token "8267")
  /\ posts (trace (snd (run_body example_repr example_int_of_str
                                 (answering 204 "") "loki" "gateway"
                                 site_event cold_start))) = []
  /\ token_file (snd (run_body example_repr example_int_of_str
                               (answering 204 "") "loki" "gateway"
                               site_event cold_start))
     = Some (token "8267").
Proof.
  destruct (unwanted_event_not_posted_but_persisted
              example_repr example_int_of_str (answering 204 "")
              "loki" "gateway" site_event (VStr "site") (token "8267")
              cold_start eq_refl eq_refl eq_refl) as (_ & Hp & Hf & _).
  do 3 (split; [reflexivity|]). split; [exact Hp|exact Hf].
Defined.

(** An alert without [time] raises [KeyError] and changes nothing. *)
Lemma missing_time_witness :
  dict_get timeless_event "ns"
  = Some (VDict [("db", VStr "unifi"); ("coll", VStr "alert")])
  /\ wanted (VStr "alert") = true
  /\ exists key,
      (key = "_id" \/ key = "time")
      /\ handle_change_request example_repr example_int_of_str
                               "loki" "gateway" timeless_event
         = Raise (KeyError key)
      /\ forall s,
          handle_change example_repr example_int_of_str (answering 204 "")
                        "loki" "gateway" timeless_event s
          = (Raise (KeyError key), s)
          /\ run_body example_repr example_int_of_str (answering 204 "")
                      "loki" "gateway" timeless_event s
             = (Raise (KeyError key), s).
Proof.
  split; [reflexivity|]. split; [reflexivity|].
  exact (missing_time_or_id_fails
           example_repr example_int_of_str (answering 204 "")
           "loki" "gateway" timeless_event
           [("_id", VObjectId "65532f00a1b2c3d4e5f6071a");
            ("key", VStr "EVT_AP_Lost")]
           (VDict [("db", VStr "unifi"); ("coll", VStr "alert")])
           (VStr "alert") eq_refl eq_refl eq_refl eq_refl
           (or_intror eq_refl)).
Defined.

(** C7 does not hold as stated: for the collection [site], which is not
    wanted, the Label Deriver raises nothing and returns the labels. *)
Lemma labels_unwanted_counterexample :
  ~ In "site" WANTED_COLLECTIONS
  /\ _labels_for_change "gateway" [("collection", VStr "site"); ("key", VStr "x")]
     = Ok [ ("source", VStr "unifi-mongodb-watcher");
            ("job", VStr "unifi-mongodb-watcher");
            ("host", VStr "gateway");
            ("collection", VStr "site") ].
Proof.
  split; [|reflexivity]. simpl. intuition discriminate.
Qed.

Lemma labels_unwanted_witness :
  dict_get [("collection", VStr "site"); ("key", VStr "x")] "collection"
  = Some (VStr "site")
  /\ wanted (VStr "site") = false
  /\ _labels_for_change "gateway" [("collection", VStr "site"); ("key", VStr "x")]
     = Ok (fixed_labels "gateway" (VStr "site")).
Proof.
  split; [reflexivity|]. split; [reflexivity|].
  exact (proj1 (labels_of_unwanted_collection
                  "gateway" [("collection", VStr "site"); ("key", VStr "x")]
                  (VStr "site") eq_refl eq_refl)).
Defined.

(** [flatten] on a mapping that is flat already. *)
Lemma flatten_witness :
  flat [("a", VInt 1); ("b", VStr "x")]
  /\ flatten (flatten [("a", VInt 1); ("b", VStr "x")] "" "_") "" "_"
     = flatten [("a", VInt 1); ("b", VStr "x")] "" "_".
Proof.
  assert (Hf : flat [("a", VInt 1); ("b", VStr "x")])
    by (repeat constructor).
  split; [exact Hf|].
  exact (proj2 flatten_total_idempotent_on_flat
               [("a", VInt 1); ("b", VStr "x")] Hf).
Defined.

(** The [key] under [meta] reaches the flattened record as [meta_key], and
    the row key is [unknown]. *)
Lemma nested_row_key_witness :
  dict_get nested_key_document "key" = None
  /\ dict_get nested_key_document "meta"
     = Some (VDict [("key", VStr "EVT_SW_Connected")])
  /\ In "meta_key" (keys (flatten nested_key_document "" "_"))
  /\ exists labels,
      _labels_for_change "gateway" nested_key_document = Ok labels
      /\ dict_get labels "row_key" = Some (VStr "unknown").
Proof.
  assert (Hs : In ("event", "key") row_key_sources) by (simpl; tauto).
  destruct (proj2 (nested_row_key_source_is_ignored
                     example_repr example_int_of_str "loki" "gateway")
                  nested_key_document [("key", VStr "EVT_SW_Connected")]
                  "event" "key" "meta" (VStr "EVT_SW_Connected")
                  eq_refl Hs eq_refl eq_refl eq_refl eq_refl)
    as (Hk & Hl & _).
  split; [reflexivity|]. split; [reflexivity|]. split; [exact Hk|].
  apply Hl. discriminate.
Defined.

(** An event without [ns] is skipped and persisted. *)
Lemma missing_ns_witness :
  dict_get bare_event "ns" = None
  /\ dict_get bare_event "_id" = Some (token "8268")
  /\ run_body example_repr example_int_of_str (answering 204 "")
              "loki" "gateway" bare_event cold_start
     = (Ok tt, persisted cold_start (token "8268")).
Proof.
  split; [reflexivity|]. split; [reflexivity|].
  exact (proj1 (proj2 (proj2 (filter_total_on_missing_ns_or_coll
                                example_repr example_int_of_str
                                (answering 204 "") "loki" "gateway"
                                bare_event (token "8268") cold_start
                                (or_introl eq_refl) eq_refl)))).
Defined.

(** * The further properties at the examples *)

Lemma flatten_last_item_witness :
  is_mapping (VInt 2) = false
  /\ dict_get (flatten ([("a_b", VInt 1); ("a", VDict [("b", VInt 3)])]
                        ++ [("a_b", VInt 2)])%list "" "_") "a_b"
     = Some (VInt 2).
Proof.
  split; [reflexivity|].
  exact (proj2 flatten_last_item_wins
               [("a_b", VInt 1); ("a", VDict [("b", VInt 3)])]
               "_" "a_b" (VInt 2) eq_refl).
Defined.

Lemma flatten_keys_witness :
  "meta" <> ""
  /\ In "meta_key" (keys (flatten [("key", VStr "x")] "meta" "_"))
  /\ exists rest, "meta_key" = "meta" ++ "_" ++ rest.
Proof.
  assert (Hne : "meta" <> "") by discriminate.
  assert (Hin : In "meta_key" (keys (flatten [("key", VStr "x")] "meta" "_")))
    by (left; reflexivity).
  split; [exact Hne|]. split; [exact Hin|].
  exact (flatten_keys_start_with_parent
           [("key", VStr "x")] "meta" "_" "meta_key" Hne Hin).
Defined.

Lemma flatten_of_flat_witness :
  flat [("a", VInt 1); ("b", VStr "x")]
  /\ NoDup (keys [("a", VInt 1); ("b", VStr "x")])
  /\ flatten [("a", VInt 1); ("b", VStr "x")] "p" "_"
     = [("p_a", VInt 1); ("p_b", VStr "x")].
Proof.
  assert (Hf : flat [("a", VInt 1); ("b", VStr "x")]) by (repeat constructor).
  assert (Hn : NoDup (keys [("a", VInt 1); ("b", VStr "x")])).
  { repeat constructor; simpl; intros H;
      repeat (destruct H as [H|H]; [discriminate|]); exact H. }
  split; [exact Hf|]. split; [exact Hn|].
  exact (proj1 (flatten_of_flat [("a", VInt 1); ("b", VStr "x")] "p" "_" Hf Hn)).
Defined.

Lemma dumps_object_id_witness :
  serializable (VDict [("site", VList [VObjectId "65532f00a1b2c3d4e5f6071d"])])
  = false
  /\ dumps (VDict [("site", VList [VObjectId "65532f00a1b2c3d4e5f6071d"])])
     = Raise TypeError.
Proof.
  split; [reflexivity|].
  exact (proj2 (dumps_rejects_object_ids_and_encodes_plain_values
                  (VDict [("site", VList [VObjectId "65532f00a1b2c3d4e5f6071d"])]))
               eq_refl).
Defined.

Lemma request_line_witness :
  exists req change',
    handle_change_request example_repr example_int_of_str "loki" "gateway"
                          alert_event = Ok (req, change')
    /\ exists document labels line stream,
        dict_get change' "fullDocument" = Some (VDict document)
        /\ _labels_for_change "gateway" document = Ok labels
        /\ req_line req = JObj line
        /\ map fst line = keys (flatten document "" "_")
        /\ req_stream req = JObj stream
        /\ map fst stream = keys labels.
Proof.
  eexists. eexists. split; [reflexivity|].
  exact (request_line_has_the_flattened_keys
           example_repr example_int_of_str "loki" "gateway"
           alert_event _ _ eq_refl).
Defined.

Lemma labels_without_collection_witness :
  dict_get [("key", VStr "x")] "collection" = None
  /\ _labels_for_change "gateway" [("key", VStr "x")]
     = Raise (KeyError "collection").
Proof.
  split; [reflexivity|].
  exact (proj1 (labels_agree_with_wanted_collections
                  "gateway" [("key", VStr "x")]) eq_refl).
Defined.

Lemma null_time_witness :
  dict_get null_time_document "time" = Some VNone
  /\ timeless_type VNone = true
  /\ handle_change_request example_repr example_int_of_str "loki" "gateway"
                           null_time_event = Raise TypeError.
Proof.
  split; [reflexivity|]. split; [reflexivity|].
  exact (proj1 (time_of_other_type_is_rejected
                  example_repr example_int_of_str (answering 204 "")
                  "loki" "gateway" null_time_event null_time_document
                  (VDict [("db", VStr "unifi"); ("coll", VStr "alert")])
                  (VStr "alert") (VObjectId "65532f00a1b2c3d4e5f6071c") VNone
                  eq_refl eq_refl eq_refl eq_refl eq_refl eq_refl)).
Defined.

Lemma request_shape_witness :
  exists req change',
    handle_change_request example_repr example_int_of_str "loki" "gateway"
                          alert_event = Ok (req, change')
    /\ req_url req = "http://loki:3100/loki/api/v1/push"
    /\ req_content_type req = "application/json".
Proof.
  eexists. eexists. split; [reflexivity|].
  destruct (request_shape example_repr example_int_of_str "loki" "gateway"
                          alert_event _ _ eq_refl) as (Hu & Hc & _).
  split; [exact Hu|exact Hc].
Defined.

Lemma rewritten_fields_witness :
  exists req change',
    handle_change_request example_repr example_int_of_str "loki" "gateway"
                          alert_event = Ok (req, change')
    /\ exists ns coll fullDocument _id document,
        dict_get alert_event "ns" = Some ns
        /\ getitem ns "coll" = Ok coll
        /\ dict_get alert_event "fullDocument" = Some (VDict fullDocument)
        /\ dict_get fullDocument "_id" = Some _id
        /\ dict_get change' "fullDocument" = Some (VDict document)
        /\ dict_get document "collection" = Some coll
        /\ dict_get document "_id" = Some (VStr (py_str example_repr _id))
        /\ (forall k, k <> "collection" -> k <> "_id" -> k <> "time" ->
                      dict_get document k = dict_get fullDocument k)
        /\ (forall k, k <> "fullDocument" ->
                      dict_get change' k = dict_get alert_event k).
Proof.
  eexists. eexists. split; [reflexivity|].
  exact (handle_change_rewrites_three_fields
           example_repr example_int_of_str "loki" "gateway"
           alert_event _ _ eq_refl).
Defined.

Lemma transport_failure_witness :
  collection_name alert_event = Ok (VStr "alert")
  /\ wanted (VStr "alert") = true
  /\ fst (run_body example_repr example_int_of_str unreachable
                   "loki" "gateway" alert_event cold_start)
     = Raise ConnectionError
  /\ token_file (snd (run_body example_repr example_int_of_str unreachable
                               "loki" "gateway" alert_event cold_start))
     = None.
Proof.
  split; [reflexivity|]. split; [reflexivity|].
  assert (H : exists req change',
             handle_change_request example_repr example_int_of_str
                                   "loki" "gateway" alert_event
             = Ok (req, change')) by (eexists; eexists; reflexivity).
  destruct H as (req & change' & Hreq).
  destruct (transport_failure_is_fatal
              example_repr example_int_of_str unreachable "loki" "gateway"
              alert_event change' (VStr "alert") req cold_start
              eq_refl eq_refl Hreq eq_refl) as (_ & Hrun & _ & _ & Hfile).
  rewrite Hrun. split; [reflexivity|exact Hfile].
Defined.

Lemma delivered_event_witness :
  dict_get alert_event "_id" = Some (token "8265")
  /\ ~ (400 <= status_code (mk_response 204 "") < 600)
  /\ exists req,
      run_body example_repr example_int_of_str (answering 204 "")
               "loki" "gateway" alert_event cold_start
      = (Ok tt,
         mk_state (Some (token "8265")) (Some (token "8265"))
                  [Posted req (Some (mk_response 204 ""));
                   WroteToken (token "8265")]).
Proof.
  assert (Hst : ~ (400 <= status_code (mk_response 204 "") < 600))
    by (simpl; lia).
  split; [reflexivity|]. split; [exact Hst|].
  eexists.
  refine (delivered_event_posted_then_persisted
            example_repr example_int_of_str (answering 204 "")
            "loki" "gateway" alert_event _ (VStr "alert") (token "8265")
            _ (mk_response 204 "") cold_start
            eq_refl eq_refl eq_refl eq_refl Hst eq_refl).
Defined.

Lemma run_abort_witness :
  fst (run example_repr example_int_of_str (answering 204 "")
           "loki" "gateway" [Change timeless_event] cold_start)
  = Raise (KeyError "time")
  /\ run example_repr example_int_of_str (answering 204 "")
         "loki" "gateway" ([Change timeless_event] ++ [Change alert_event])
         cold_start
     = (Raise (KeyError "time"), cold_start).
Proof.
  split; [reflexivity|].
  exact (proj1 (proj2 (run_stops_at_first_failure
                         example_repr example_int_of_str (answering 204 "")
                         "loki" "gateway"))
               [Change timeless_event] [Change alert_event]
               cold_start cold_start (KeyError "time") eq_refl).
Defined.

Lemma token_and_file_witness :
  resume_token cold_start = token_file cold_start
  /\ resume_token (snd (run example_repr example_int_of_str (answering 500 "")
                            "loki" "gateway"
                            [Change site_event; Change alert_event] cold_start))
     = token_file (snd (run example_repr example_int_of_str (answering 500 "")
                            "loki" "gateway"
                            [Change site_event; Change alert_event] cold_start)).
Proof.
  split; [reflexivity|].
  exact (run_keeps_token_and_file_equal
           example_repr example_int_of_str (answering 500 "")
           "loki" "gateway" [Change site_event; Change alert_event]
           cold_start eq_refl).
Defined.

Lemma init_witness :
  environ_get example_environ "MONGODB_CONN_STR"
  = Some "mongodb://127.0.0.1:27117"
  /\ environ_get example_environ "LOKI_HOST" = Some "loki"
  /\ exists self,
      __init__ example_environ None "gateway" = Started self
      /\ self_loki_host self = "loki"
      /\ self_resume_token self = None
      /\ self_host self = "gateway".
Proof.
  split; [reflexivity|]. split; [reflexivity|].
  destruct (proj2 (proj2 (init_requires_connection_and_host
                            example_environ None "gateway"))
                  "mongodb://127.0.0.1:27117" "loki" eq_refl eq_refl)
    as (self & Hs & _ & Hl & Hr & _ & Hh).
  exists self. split; [exact Hs|]. split; [exact Hl|]. split; [exact Hr|].
  exact (Hh eq_refl).
Defined.

Lemma completed_run_witness :
  exists s1,
    run example_repr example_int_of_str (answering 204 "") "loki" "gateway"
        [Change site_event; Change alert_event] cold_start = (Ok tt, s1)
    /\ exists ids,
        writes (trace s1) = (writes (trace cold_start) ++ ids)%list
        /\ Forall2 (fun item id =>
                      exists change,
                        item = Change change
                        /\ dict_get change "_id" = Some id)
                   [Change site_event; Change alert_event] ids
        /\ token_file s1 = last (map Some ids) (token_file cold_start).
Proof.
  eexists. split; [reflexivity|].
  exact (completed_run_writes_every_id
           example_repr example_int_of_str (answering 204 "") "loki" "gateway"
           [Change site_event; Change alert_event] cold_start _ eq_refl).
Defined.

Lemma event_without_document_witness :
  dict_get bare_alert_event "ns"
  = Some (VDict [("db", VStr "unifi"); ("coll", VStr "alert")])
  /\ dict_get bare_alert_event "fullDocument" = None
  /\ handle_change example_repr example_int_of_str (answering 204 "")
                   "loki" "gateway" bare_alert_event cold_start
     = (Raise (KeyError "fullDocument"), cold_start).
Proof.
  split; [reflexivity|]. split; [reflexivity|].
  exact (proj1 (event_without_document_fails
                  example_repr example_int_of_str (answering 204 "")
                  "loki" "gateway" bare_alert_event
                  (VDict [("db", VStr "unifi"); ("coll", VStr "alert")])
                  (VStr "alert") eq_refl eq_refl)
               eq_refl cold_start).
Defined.
